(** * EVO charger CAN utilities: the message codec of utils_canBus_charger_level1..4.c

    A shallow embedding of the encode and decode functions of the four
    protocol levels, and the properties of the codec proved on it.

    Conventions of the embedding.
    - A [uint8_t], [uint16_t] or [enum] object is a [Z]; where the C code
      narrows a value to 8 or 16 bits the wrap-around is written out
      ([to_u8], [to_u16]).  A C [enum] object holds whatever integer the
      cast stores in it, so the enumerations are [Z] with named constants.
    - [const uint8_t data[8]] is a [list Z]; [data[i]] is [byte_at data i].
      The callers pass eight bytes, each in 0..255 ([frame_ok]).
    - A C [float] is an IEEE-754 binary32 number: a [spec_float] operated
      with precision 24 and maximal exponent 128, every operation rounded to
      nearest-even in single precision (FLT_EVAL_METHOD 0), decimal
      constants rounded correctly.
    - The conversion of a [float] to [uint16_t] is defined by ISO C only
      when the integral part of the number fits 16 bits.  Where it does
      not, the embedding does not choose a result: the value an execution
      leaves in the 16-bit object is an input of that execution
      ([Level1.oor_t]), and a theorem about such an execution holds for
      every value.
    - A pointer argument is an [option]: [None] is NULL, [Some v] points to
      an object that holds [v] when the function is entered.  A function
      that writes through a pointer returns the object as it is left. *)

From Stdlib Require Import String.
From Stdlib Require Import ZArith List Bool Lia QArith Qround.
From Stdlib Require Import Floats.SpecFloat.
Import ListNotations.

Local Open Scope Z_scope.

(* ------------------------------------------------------------------ *)
(** ** Machine integers and byte buffers *)

Definition to_u8 (z : Z) : Z := z mod 256.
Definition to_u16 (z : Z) : Z := z mod 65536.
Definition to_u32 (z : Z) : Z := z mod 4294967296.

Definition byte_ok (b : Z) : Prop := 0 <= b <= 255.

Definition frame := list Z.

(** [data[i]] for a buffer that has the byte. *)
Definition byte_at (data : frame) (i : nat) : Z := nth i data 0.

(** [data[i] = v]. *)
Fixpoint store (data : frame) (i : nat) (v : Z) : frame :=
  match data, i with
  | [], _ => []
  | _ :: rest, O => v :: rest
  | b :: rest, S j => b :: store rest j v
  end.

(** [memset(data, 0, 8)] on an array of eight bytes. *)
Definition memset8 (data : frame) : frame := repeat 0 8.

Definition frame_ok (data : frame) : Prop :=
  length data = 8%nat /\ Forall byte_ok data.

(** [(data[i] << 8) | data[i+1]] stored in a [uint16_t]. *)
Definition be16 (data : frame) (i : nat) : Z :=
  to_u16 (Z.lor (Z.shiftl (byte_at data i) 8) (byte_at data (S i))).

(** [(x & mask) != 0]. *)
Definition flag (x mask : Z) : bool := negb (Z.land x mask =? 0).

(* ------------------------------------------------------------------ *)
(** ** Single-precision arithmetic *)

Module F32.

Definition prec : Z := 24.
Definition emax : Z := 128.

Definition mul : spec_float -> spec_float -> spec_float := SFmul prec emax.
Definition div : spec_float -> spec_float -> spec_float := SFdiv prec emax.
Definition sub : spec_float -> spec_float -> spec_float := SFsub prec emax.
Definition ltb : spec_float -> spec_float -> bool := SFltb.
Definition leb : spec_float -> spec_float -> bool := SFleb.
Definition valid : spec_float -> bool := valid_binary prec emax.

(** The conversion of an integer to [float]. *)
Definition of_Z (z : Z) : spec_float := binary_normalize prec emax z 0 false.

(** The constant written [p/q] in decimal, correctly rounded. *)
Definition decimal (p q : Z) : spec_float := div (of_Z p) (of_Z q).

Definition zero : spec_float := S754_zero false.

(** The integral part of a finite number, the fraction discarded. *)
Definition trunc (x : spec_float) : Z :=
  match x with
  | S754_finite s m e => cond_Zopp s (Z.shiftl (Zpos m) e)
  | _ => 0
  end.

Definition is_finite (x : spec_float) : bool :=
  match x with
  | S754_finite _ _ _ | S754_zero _ => true
  | _ => false
  end.

(** The exact value of a finite number. *)
Definition to_Q (x : spec_float) : Q :=
  match x with
  | S754_finite s m (Zneg p) => Qmake (cond_Zopp s (Zpos m)) (2 ^ p)
  | S754_finite s m e => inject_Z (cond_Zopp s (Zpos m) * 2 ^ e)
  | _ => 0%Q
  end.

(** [(uint16_t) x].  The fraction is discarded.  When the integral part
    does not fit 16 bits, or [x] is an infinity or a NaN, ISO C leaves the
    conversion undefined; [stored], reduced to 16 bits, is what this
    execution of the conversion then leaves in the object.  It is an input
    of each execution and not a function of [x]: the same number may be
    converted differently at two places of a program, or on two paths
    through the same function (a gcc -O2 build of [Voltage_ToRawCan]
    converts 100000.0f to 0xFFFF where the upper clamp has applied and to
    0x86A0 where it has not). *)
Definition to_uint16 (stored : Z) (x : spec_float) : Z :=
  if is_finite x && (0 <=? trunc x) && (trunc x <=? 65535)
  then trunc x
  else to_u16 stored.

(** What a compilation that converts to a wider integer first and then
    keeps the low 16 bits stores for [x]. *)
Definition oor_wrap (x : spec_float) : Z := trunc x.

End F32.

(* ------------------------------------------------------------------ *)
(** ** Level 1: control and real-time messages (utils_canBus_charger_level1.c) *)

Module Level1.

Definition CAN_ID_CTL : Z := 0x618.
Definition CAN_ID_STAT : Z := 0x610.
Definition CAN_ID_ACT1 : Z := 0x611.
Definition CAN_ID_ACT2 : Z := 0x614.
Definition CAN_ID_TST1 : Z := 0x615.

Record CanPacket_Ctl_t := {
  can_enable : bool;
  led3_enable : bool;
  iac_max_A : spec_float;
  vout_max_V : spec_float;
  iout_max_A : spec_float
}.

Record CanPacket_Stat_t := {
  power_enable : bool;
  error_latch : bool;
  warn_limit : bool;
  lim_temp : bool;
  warning_hv : bool;
  bulks : bool
}.

Record CanPacket_Act1_t := {
  iac_A : spec_float;
  temp_C : spec_float;
  vout_V : spec_float;
  iout_A : spec_float
}.

Record CanPacket_Act2_t := {
  temp_loglv_C : spec_float;
  ac_power_kW : spec_float;
  prox_limit_A : spec_float;
  pilot_limit_A : spec_float
}.

Record CanPacket_Tst1_t := {
  ack : bool; pr_compl : bool; pwr_ok : bool; vout_ok : bool;
  neutral : bool; led3 : bool; led618 : bool;
  ovp : bool; conn_open : bool; ther_fail : bool; rx618_fail : bool;
  bulk1_fail : bool; bulk2_fail : bool; bulk3_fail : bool; pump_on : bool;
  fan_on : bool; hv_rx_fail : bool; cooling_fail : bool; rx619_fail : bool;
  neutro1 : bool; neutro2 : bool; three_phase : bool; iac_fail : bool;
  ignition : bool; lv_battery_np : bool;
  prox_ok : bool; pilot_ok : bool; s2_ok : bool;
  cnt_hours : Z
}.

(** What one execution leaves in the result of the conversion to
    [uint16_t] of each converter, should that conversion be undefined (see
    [F32.to_uint16]).  Each converter has one conversion, and one call of
    [CanBus_CreatePacket_Ctl] executes each converter once. *)
Record oor_t := {
  oor_voltage : Z;
  oor_current_out : Z;
  oor_current_ac : Z
}.

Section Encode.

Variable oor : oor_t.

Definition Voltage_ToRawCan (voltage_V : spec_float) : Z :=
  let voltage_V :=
    if F32.ltb voltage_V F32.zero then F32.zero else voltage_V in
  let voltage_V :=
    if F32.ltb (F32.of_Z 10000) voltage_V then F32.of_Z 10000 else voltage_V in
  F32.to_uint16 (oor_voltage oor) (F32.mul voltage_V (F32.of_Z 10)).

Definition CurrentOut_ToRawCan (current_A : spec_float) : Z :=
  let current_A :=
    if F32.ltb current_A F32.zero then F32.zero else current_A in
  let current_A :=
    if F32.ltb (F32.of_Z 1500) current_A then F32.of_Z 1500 else current_A in
  F32.to_uint16 (oor_current_out oor) (F32.mul current_A (F32.of_Z 10)).

Definition CurrentAC_ToRawCAN (current_A : spec_float) : Z :=
  let current_A :=
    if F32.ltb current_A F32.zero then F32.zero else current_A in
  let current_A :=
    if F32.ltb (F32.of_Z 500) current_A then F32.of_Z 500 else current_A in
  F32.to_uint16 (oor_current_ac oor) (F32.mul current_A (F32.of_Z 10)).

Definition CanBus_CreatePacket_Ctl
    (ctl : option CanPacket_Ctl_t) (data : option frame) : bool * option frame :=
  match ctl, data with
  | Some ctl, Some data =>
      let data := memset8 data in
      let data := store data 0 0 in
      let data := if can_enable ctl
                  then store data 0 (Z.lor (byte_at data 0) 0x80) else data in
      let data := if led3_enable ctl
                  then store data 0 (Z.lor (byte_at data 0) 0x08) else data in
      let iac_raw := CurrentAC_ToRawCAN (iac_max_A ctl) in
      let data := store data 1 (to_u8 (Z.land (Z.shiftr iac_raw 8) 0xFF)) in
      let data := store data 2 (to_u8 (Z.land iac_raw 0xFF)) in
      let vout_raw := Voltage_ToRawCan (vout_max_V ctl) in
      let data := store data 3 (to_u8 (Z.land (Z.shiftr vout_raw 8) 0xFF)) in
      let data := store data 4 (to_u8 (Z.land vout_raw 0xFF)) in
      let iout_raw := CurrentOut_ToRawCan (iout_max_A ctl) in
      let data := store data 5 (to_u8 (Z.land (Z.shiftr iout_raw 8) 0xFF)) in
      let data := store data 6 (to_u8 (Z.land iout_raw 0xFF)) in
      let data := store data 7 0x00 in
      (true, Some data)
  | _, _ => (false, data)
  end.

Definition CanBus_CreatePacket_Ctl_Simple
    (can_enable led3_enable : bool)
    (iac_max_A vout_max_V iout_max_A : spec_float)
    (data : option frame) : bool * option frame :=
  let ctl := {| can_enable := can_enable; led3_enable := led3_enable;
                iac_max_A := iac_max_A; vout_max_V := vout_max_V;
                iout_max_A := iout_max_A |} in
  CanBus_CreatePacket_Ctl (Some ctl) data.

End Encode.

Definition CanBus_DecodePacket_Stat
    (data : option frame) (stat : option CanPacket_Stat_t)
    : bool * option CanPacket_Stat_t :=
  match stat, data with
  | Some _, Some data =>
      (true, Some {| power_enable := flag (byte_at data 0) 0x80;
                     error_latch := flag (byte_at data 0) 0x40;
                     warn_limit := flag (byte_at data 0) 0x20;
                     lim_temp := flag (byte_at data 0) 0x08;
                     warning_hv := flag (byte_at data 0) 0x02;
                     bulks := flag (byte_at data 0) 0x01 |})
  | _, _ => (false, stat)
  end.

Definition CanBus_DecodePacket_Act1
    (data : option frame) (act1 : option CanPacket_Act1_t)
    : bool * option CanPacket_Act1_t :=
  match act1, data with
  | Some _, Some data =>
      let iac_raw := be16 data 0 in
      let temp_raw := be16 data 2 in
      let vout_raw := be16 data 4 in
      let iout_raw := be16 data 6 in
      (true, Some {| iac_A := F32.div (F32.of_Z iac_raw) (F32.of_Z 10);
                     temp_C := F32.sub (F32.mul (F32.of_Z temp_raw)
                                                (F32.decimal 5188 1000000))
                                       (F32.of_Z 40);
                     vout_V := F32.div (F32.of_Z vout_raw) (F32.of_Z 10);
                     iout_A := F32.div (F32.of_Z iout_raw) (F32.of_Z 10) |})
  | _, _ => (false, act1)
  end.

Definition CanBus_DecodePacket_Act2
    (data : option frame) (act2 : option CanPacket_Act2_t)
    : bool * option CanPacket_Act2_t :=
  match act2, data with
  | Some _, Some data =>
      let temp_raw := be16 data 0 in
      let power_raw := be16 data 2 in
      let prox_raw := be16 data 4 in
      let pilot_raw := be16 data 6 in
      (true, Some {| temp_loglv_C := F32.sub (F32.mul (F32.of_Z temp_raw)
                                                      (F32.decimal 5188 1000000))
                                             (F32.of_Z 40);
                     ac_power_kW := F32.mul (F32.of_Z power_raw) (F32.decimal 1 100);
                     prox_limit_A := F32.div (F32.of_Z prox_raw) (F32.of_Z 10);
                     pilot_limit_A := F32.div (F32.of_Z pilot_raw) (F32.of_Z 10) |})
  | _, _ => (false, act2)
  end.

Definition CanBus_DecodePacket_Tst1
    (data : option frame) (tst : option CanPacket_Tst1_t)
    : bool * option CanPacket_Tst1_t :=
  match tst, data with
  | Some _, Some data =>
      (true, Some {| ack := flag (byte_at data 0) 0x80;
                     pr_compl := flag (byte_at data 0) 0x40;
                     pwr_ok := flag (byte_at data 0) 0x20;
                     vout_ok := flag (byte_at data 0) 0x10;
                     neutral := flag (byte_at data 0) 0x08;
                     led3 := flag (byte_at data 0) 0x04;
                     led618 := flag (byte_at data 0) 0x02;
                     ovp := flag (byte_at data 1) 0x80;
                     conn_open := flag (byte_at data 1) 0x40;
                     ther_fail := flag (byte_at data 1) 0x04;
                     rx618_fail := flag (byte_at data 1) 0x01;
                     bulk1_fail := flag (byte_at data 2) 0x80;
                     bulk2_fail := flag (byte_at data 2) 0x40;
                     bulk3_fail := flag (byte_at data 2) 0x20;
                     pump_on := flag (byte_at data 2) 0x10;
                     fan_on := flag (byte_at data 2) 0x08;
                     hv_rx_fail := flag (byte_at data 2) 0x04;
                     cooling_fail := flag (byte_at data 2) 0x02;
                     rx619_fail := flag (byte_at data 2) 0x01;
                     neutro1 := flag (byte_at data 3) 0x80;
                     neutro2 := flag (byte_at data 3) 0x40;
                     three_phase := flag (byte_at data 3) 0x20;
                     iac_fail := flag (byte_at data 3) 0x04;
                     ignition := flag (byte_at data 3) 0x02;
                     lv_battery_np := flag (byte_at data 3) 0x01;
                     prox_ok := flag (byte_at data 4) 0x80;
                     pilot_ok := flag (byte_at data 4) 0x20;
                     s2_ok := flag (byte_at data 4) 0x08;
                     cnt_hours := be16 data 6 |})
  | _, _ => (false, tst)
  end.

(** The values [CanBus_Debug_PrintCtl] decodes from a control frame and
    prints; the text of the [printf] calls is left out. *)
Record Ctl_printed := {
  p_can_enable : bool;
  p_led3 : bool;
  p_iac_raw : Z;
  p_iac : spec_float;
  p_vout_raw : Z;
  p_vout : spec_float;
  p_iout_raw : Z;
  p_iout : spec_float
}.

Definition CanBus_Debug_PrintCtl (data : frame) : Ctl_printed :=
  let can_enable := flag (byte_at data 0) 0x80 in
  let led3 := flag (byte_at data 0) 0x08 in
  let iac_raw := be16 data 1 in
  let iac := F32.div (F32.of_Z iac_raw) (F32.of_Z 10) in
  let vout_raw := be16 data 3 in
  let vout := F32.div (F32.of_Z vout_raw) (F32.of_Z 10) in
  let iout_raw := be16 data 5 in
  let iout := F32.div (F32.of_Z iout_raw) (F32.of_Z 10) in
  {| p_can_enable := can_enable; p_led3 := led3;
     p_iac_raw := iac_raw; p_iac := iac;
     p_vout_raw := vout_raw; p_vout := vout;
     p_iout_raw := iout_raw; p_iout := iout |}.

(** [CanBus_GenerateRandomPacket].  [rng] is the state of the C library's
    generator, [srand] and [rand] its two functions and [now] what
    [time(NULL)] returns; [seeded] is the function's static flag.  The
    function returns the buffer filled and the flag and generator as they
    are left. *)
Section Random.

Variable rng : Type.
Variable srand : Z -> rng -> rng.
Variable rand : rng -> Z * rng.
Variable now : Z.

(** The loop [for (i = ...; i < 8; i++) data[i] = (uint8_t)(rand() & 0xFF);]
    with [n] iterations left. *)
Fixpoint random_loop (data : frame) (i n : nat) (g : rng) : frame * rng :=
  match n with
  | O => (data, g)
  | S n' =>
      let (v, g') := rand g in
      random_loop (store data i (to_u8 (Z.land v 0xFF))) (S i) n' g'
  end.

Definition CanBus_GenerateRandomPacket
    (seeded : bool) (g : rng) (data : frame) : frame * (bool * rng) :=
  let (seeded, g) :=
    if negb seeded then (true, srand (to_u32 now) g) else (seeded, g) in
  let (data, g) := random_loop data 0 8 g in
  (data, (seeded, g)).

End Random.

End Level1.

(* ------------------------------------------------------------------ *)
(** ** Level 2: on-demand diagnostics (utils_canBus_charger_level2.c) *)

Module Level2.

Definition CAN_ID_REQ : Z := 0x61B.
Definition CAN_ID_FLTA : Z := 0x61D.
Definition CAN_ID_FLTP : Z := 0x61C.
Definition CAN_ID_SW : Z := 0x61E.
Definition CAN_ID_SN : Z := 0x61F.

(** [RequestType_t] *)
Definition REQ_FAULT_INACTIVE : Z := 0x1C.
Definition REQ_FAULT_ACTIVE : Z := 0x1D.
Definition REQ_SOFTWARE : Z := 0x1E.
Definition REQ_SERIAL_NUMBER : Z := 0x1F.

(** [FailureLevel_t]: the enumerators are the decimal numbers 1, 10, 11. *)
Definition FAILURE_WARNING : Z := 1.
Definition FAILURE_SOFT : Z := 10.
Definition FAILURE_HARD : Z := 11.

(** [FrameType_t] *)
Definition FRAME_SINGLE : Z := 1.
Definition FRAME_MULTI : Z := 2.

Record CanPacket_Fault_t := {
  frame_type : Z;
  total_errors : Z;
  frame_number : Z;
  fault_code : Z;
  occurrence : Z;
  failure_level : Z;
  first_time_h : Z;
  last_time_h : Z
}.

(** [char version[9]] *)
Record CanPacket_Software_t := { version : list Z }.

(** [char serial[9]] *)
Record CanPacket_SerialNumber_t := { serial : list Z }.

Definition CanBus_CreatePacket_Req
    (enable : bool) (request_type : Z) (data : option frame)
    : bool * option frame :=
  match data with
  | None => (false, data)
  | Some data =>
      let data := memset8 data in
      let data := store data 0 (if enable then 0x80 else 0x00) in
      let data := store data 1 0x00 in
      let data := store data 2 0x06 in
      let data := store data 3 (to_u8 request_type) in
      (true, Some data)
  end.

Definition CanBus_Request_FaultActive (data : option frame) :=
  CanBus_CreatePacket_Req true REQ_FAULT_ACTIVE data.

Definition CanBus_Request_FaultInactive (data : option frame) :=
  CanBus_CreatePacket_Req true REQ_FAULT_INACTIVE data.

Definition CanBus_Request_Software (data : option frame) :=
  CanBus_CreatePacket_Req true REQ_SOFTWARE data.

Definition CanBus_Request_SerialNumber (data : option frame) :=
  CanBus_CreatePacket_Req true REQ_SERIAL_NUMBER data.

(** The chain of [if]/[else if] on [level_bits] has no final [else]: for
    the pattern 01 no assignment is made and [failure_level] keeps what
    the struct held on entry. *)
Definition CanBus_DecodePacket_Fault
    (data : option frame) (fault : option CanPacket_Fault_t)
    : bool * option CanPacket_Fault_t :=
  match fault, data with
  | Some fault, Some data =>
      let level_bits := to_u8 (Z.land (byte_at data 3) 0x03) in
      (true, Some {|
         frame_type := Z.land (Z.shiftr (byte_at data 0) 6) 0x03;
         total_errors := to_u8 (Z.land (byte_at data 0) 0x3F);
         frame_number := to_u8 (Z.land (Z.shiftr (byte_at data 1) 2) 0x3F);
         fault_code := byte_at data 2;
         occurrence := to_u8 (Z.land (Z.shiftr (byte_at data 3) 2) 0x3F);
         failure_level :=
           if level_bits =? 0x00 then FAILURE_WARNING
           else if level_bits =? 0x02 then FAILURE_SOFT
           else if level_bits =? 0x03 then FAILURE_HARD
           else failure_level fault;
         first_time_h := be16 data 4;
         last_time_h := be16 data 6 |})
  | _, _ => (false, fault)
  end.

(** [memcpy(dst, data, 8); dst[8] = '\0'] *)
Definition copy8_nul (data : frame) : list Z := firstn 8 data ++ [0].

Definition CanBus_DecodePacket_Software
    (data : option frame) (sw : option CanPacket_Software_t)
    : bool * option CanPacket_Software_t :=
  match sw, data with
  | Some _, Some data => (true, Some {| version := copy8_nul data |})
  | _, _ => (false, sw)
  end.

Definition CanBus_DecodePacket_SerialNumber
    (data : option frame) (sn : option CanPacket_SerialNumber_t)
    : bool * option CanPacket_SerialNumber_t :=
  match sn, data with
  | Some _, Some data => (true, Some {| serial := copy8_nul data |})
  | _, _ => (false, sn)
  end.

(** The loop [for (i = ...; i < 8; i++) if (data[i] != 0xFF) return false;]
    with [n] iterations left, followed by [return true]. *)
Fixpoint no_fault_loop (data : frame) (i n : nat) : bool :=
  match n with
  | O => true
  | S n' => if negb (byte_at data i =? 0xFF) then false
            else no_fault_loop data (S i) n'
  end.

Definition CanBus_IsNoFaultDetected (data : frame) : bool :=
  no_fault_loop data 1 7.

(** What [CanBus_Debug_PrintFault] reports: either the two lines of the
    no-fault frame, or the fields of the decoded struct.  The text of the
    [printf] calls is left out. *)
Inductive fault_printed :=
| NoFaultDetected
| FaultFields (fault : CanPacket_Fault_t).

(** [fault0] is what the local [CanPacket_Fault_t fault] holds before the
    decoder fills it. *)
Definition CanBus_Debug_PrintFault
    (data : frame) (is_active : bool) (fault0 : CanPacket_Fault_t)
    : fault_printed :=
  if CanBus_IsNoFaultDetected data then NoFaultDetected
  else
    match snd (CanBus_DecodePacket_Fault (Some data) (Some fault0)) with
    | Some fault => FaultFields fault
    | None => FaultFields fault0
    end.

(** What [CanBus_Debug_PrintReq] reads from a request frame and prints:
    the enable flag, the identifier of bytes 2-3 and the name the [switch]
    on byte 3 selects. *)
Record Req_printed := {
  r_enable : bool;
  r_id : Z;
  r_name : string
}.

Definition CanBus_Debug_PrintReq (data : frame) : Req_printed :=
  let enable := flag (byte_at data 0) 0x80 in
  let id := be16 data 2 in
  {| r_enable := enable;
     r_id := id;
     r_name :=
       let b := byte_at data 3 in
       if Z.eqb b 0x1C then " (Inactive Faults)"
       else if Z.eqb b 0x1D then " (Active Faults)"
       else if Z.eqb b 0x1E then " (Software Version)"
       else if Z.eqb b 0x1F then " (Serial Number)"
       else " (Unknown)" |}%string.

(** [FaultCode_t] *)
Definition FAULT_A0_BULK1_VOLTAGE : Z := 0xA0.
Definition FAULT_A1_BULK2_VOLTAGE : Z := 0xA1.
Definition FAULT_A2_BULK3_VOLTAGE : Z := 0xA2.
Definition FAULT_A3_BULK_ERROR : Z := 0xA3.
Definition FAULT_A4_CAN_REGISTERS : Z := 0xA4.
Definition FAULT_A5_CAN_COMMAND : Z := 0xA5.
Definition FAULT_A6_TEMP_LOW : Z := 0xA6.
Definition FAULT_A7_TEMP_DERATING : Z := 0xA7.
Definition FAULT_A8_TEMP_HIGH : Z := 0xA8.
Definition FAULT_A9_TEMP_FAILED : Z := 0xA9.
Definition FAULT_AA_INPUT_CURRENT_MAX : Z := 0xAA.
Definition FAULT_AB_HVIL_INTERLOCK : Z := 0xAB.
Definition FAULT_AC_LOGIC_TEMP : Z := 0xAC.
Definition FAULT_AD_OUTPUT_OVERVOLT : Z := 0xAD.

(** The [switch] of [CanBus_GetFaultName] on its [uint8_t] argument. *)
Definition CanBus_GetFaultName (code : Z) : string :=
  (let code := to_u8 code in
   if Z.eqb code FAULT_A0_BULK1_VOLTAGE then "Bulk 1 Voltage"
   else if Z.eqb code FAULT_A1_BULK2_VOLTAGE then "Bulk 2 Voltage"
   else if Z.eqb code FAULT_A2_BULK3_VOLTAGE then "Bulk 3 Voltage"
   else if Z.eqb code FAULT_A3_BULK_ERROR then "Bulk Error"
   else if Z.eqb code FAULT_A4_CAN_REGISTERS then "CAN Registers"
   else if Z.eqb code FAULT_A5_CAN_COMMAND then "CAN Command"
   else if Z.eqb code FAULT_A6_TEMP_LOW then "Cold Plate Temp LOW"
   else if Z.eqb code FAULT_A7_TEMP_DERATING then "Cold Plate Temp DERATING"
   else if Z.eqb code FAULT_A8_TEMP_HIGH then "Cold Plate Temp HIGH"
   else if Z.eqb code FAULT_A9_TEMP_FAILED then "Cold Plate Temp FAILED"
   else if Z.eqb code FAULT_AA_INPUT_CURRENT_MAX then "Input Current MAX"
   else if Z.eqb code FAULT_AB_HVIL_INTERLOCK then "HVIL Interlock Loop"
   else if Z.eqb code FAULT_AC_LOGIC_TEMP then "Logic Temperature"
   else if Z.eqb code FAULT_AD_OUTPUT_OVERVOLT then "Output Overvoltage"
   else "Unknown Fault")%string.

Definition CanBus_GetFailureLevelStr (level : Z) : string :=
  (if Z.eqb level FAILURE_WARNING then "Warning"
   else if Z.eqb level FAILURE_SOFT then "Soft Failure"
   else if Z.eqb level FAILURE_HARD then "Hard Failure"
   else "Unknown")%string.

(** The two lines of [CanBus_Debug_PrintFault] on the frame type and the
    position of the frame: the name printed, and the two numbers of
    "Frame: %u of %u". *)
Definition printed_frame_type (fault : CanPacket_Fault_t) : string :=
  (if Z.eqb (frame_type fault) FRAME_SINGLE then "SINGLE" else "MULTI")%string.

Definition printed_frame_position (fault : CanPacket_Fault_t) : Z * Z :=
  if frame_type fault =? FRAME_MULTI
  then (frame_number fault, total_errors fault)
  else (1, 1).

End Level2.

(* ------------------------------------------------------------------ *)
(** ** Level 3: service messages (utils_canBus_charger_level3.c) *)

Module Level3.

Definition CAN_ID_ACT3 : Z := 0x712.
Definition CAN_ID_TEMP : Z := 0x713.
Definition CAN_ID_STST1 : Z := 0x715.
Definition CAN_ID_ACT4 : Z := 0x714.

Record CanPacket_Act3_t := {
  fan_voltage_V : spec_float;
  iacm1_A : spec_float;
  iacm2_A : spec_float;
  iacm3_A : spec_float
}.

Record CanPacket_Temp_t := {
  temp_loghv_C : spec_float;
  temp_power1_C : spec_float;
  temp_power2_C : spec_float;
  temp_power3_C : spec_float
}.

Record CanPacket_Stst1_t := {
  pfc_enable : bool; log_temp_high : bool; log_temp_low : bool;
  uvlo_log : bool; ther_low_fail : bool; rx618_fail : bool;
  bulk1_fail : bool; bulk2_fail : bool; bulk3_fail : bool;
  cooling_fail1 : bool; cooling_fail2 : bool; cooling_fail3 : bool;
  uvlo_log_lv : bool; bat_over : bool; bat_under : bool
}.

Record CanPacket_Act4_t := {
  temp_logfan_C : spec_float;
  iout1_raw : Z;
  iout2_raw : Z;
  iout3_raw : Z
}.

(** [raw * 0.1f] *)
Definition tenth (raw : Z) : spec_float :=
  F32.mul (F32.of_Z raw) (F32.decimal 1 10).

(** [(raw * 0.005188f) - 40.0f] *)
Definition celsius (raw : Z) : spec_float :=
  F32.sub (F32.mul (F32.of_Z raw) (F32.decimal 5188 1000000)) (F32.of_Z 40).

Definition CanBus_DecodePacket_Act3
    (data : option frame) (act3 : option CanPacket_Act3_t)
    : bool * option CanPacket_Act3_t :=
  match act3, data with
  | Some _, Some data =>
      (true, Some {| fan_voltage_V := tenth (be16 data 0);
                     iacm1_A := tenth (be16 data 2);
                     iacm2_A := tenth (be16 data 4);
                     iacm3_A := tenth (be16 data 6) |})
  | _, _ => (false, act3)
  end.

Definition CanBus_DecodePacket_Temp
    (data : option frame) (temp : option CanPacket_Temp_t)
    : bool * option CanPacket_Temp_t :=
  match temp, data with
  | Some _, Some data =>
      (true, Some {| temp_loghv_C := celsius (be16 data 0);
                     temp_power1_C := celsius (be16 data 2);
                     temp_power2_C := celsius (be16 data 4);
                     temp_power3_C := celsius (be16 data 6) |})
  | _, _ => (false, temp)
  end.

Definition CanBus_DecodePacket_Stst1
    (data : option frame) (stst : option CanPacket_Stst1_t)
    : bool * option CanPacket_Stst1_t :=
  match stst, data with
  | Some _, Some data =>
      (true, Some {| pfc_enable := flag (byte_at data 0) (Z.shiftl 1 2);
                     log_temp_high := flag (byte_at data 1) (Z.shiftl 1 5);
                     log_temp_low := flag (byte_at data 1) (Z.shiftl 1 4);
                     uvlo_log := flag (byte_at data 1) (Z.shiftl 1 3);
                     ther_low_fail := flag (byte_at data 1) (Z.shiftl 1 2);
                     rx618_fail := flag (byte_at data 1) (Z.shiftl 1 0);
                     bulk1_fail := flag (byte_at data 2) (Z.shiftl 1 7);
                     bulk2_fail := flag (byte_at data 2) (Z.shiftl 1 6);
                     bulk3_fail := flag (byte_at data 2) (Z.shiftl 1 5);
                     cooling_fail1 := flag (byte_at data 2) (Z.shiftl 1 4);
                     cooling_fail2 := flag (byte_at data 2) (Z.shiftl 1 3);
                     cooling_fail3 := flag (byte_at data 2) (Z.shiftl 1 2);
                     uvlo_log_lv := flag (byte_at data 3) (Z.shiftl 1 3);
                     bat_over := flag (byte_at data 3) (Z.shiftl 1 1);
                     bat_under := flag (byte_at data 3) (Z.shiftl 1 0) |})
  | _, _ => (false, stst)
  end.

Definition CanBus_DecodePacket_Act4
    (data : option frame) (act4 : option CanPacket_Act4_t)
    : bool * option CanPacket_Act4_t :=
  match act4, data with
  | Some _, Some data =>
      (true, Some {| temp_logfan_C := celsius (be16 data 0);
                     iout1_raw := be16 data 2;
                     iout2_raw := be16 data 4;
                     iout3_raw := be16 data 6 |})
  | _, _ => (false, act4)
  end.

(** The maximum [CanBus_Debug_PrintTemp] takes of the three power stage
    temperatures. *)
Definition max_power_stage_temp (temp : CanPacket_Temp_t) : spec_float :=
  let max_temp := temp_power1_C temp in
  let max_temp :=
    if F32.ltb max_temp (temp_power2_C temp) then temp_power2_C temp else max_temp in
  let max_temp :=
    if F32.ltb max_temp (temp_power3_C temp) then temp_power3_C temp else max_temp in
  max_temp.

End Level3.

(* ------------------------------------------------------------------ *)
(** ** Level 4: charger configuration (utils_canBus_charger_level4.c) *)

Module Level4.

Definition CAN_ID_TST2 : Z := 0x616.

(** [BaudrateType_t] *)
Definition BAUDRATE_500KBIT : Z := 0.
Definition BAUDRATE_250KBIT : Z := 1.
Definition BAUDRATE_125KBIT : Z := 2.
Definition BAUDRATE_1MBIT : Z := 3.

(** [IdType_t] *)
Definition ID_STANDARD_11BIT : Z := 0.
Definition ID_EXTENDED_29BIT : Z := 1.

(** [IacControlType_t] *)
Definition IAC_NOT_CONTROLLED : Z := 0.
Definition IAC_SAEJ1772 : Z := 1.
Definition IAC_EN61851 : Z := 2.
Definition IAC_ID618 : Z := 3.

(** [RangeType_t] *)
Definition RANGE_R4_EVO_USERS : Z := 0.
Definition RANGE_R3 : Z := 1.
Definition RANGE_R2 : Z := 2.
Definition RANGE_R1 : Z := 3.

(** [EVCModelType_t] *)
Definition EVC_EVO11K : Z := 0.
Definition EVC_EVO22K : Z := 1.

(** [IDSettingType_t] *)
Definition ID_SINGLE_CHARGER : Z := 0.
Definition ID_RANGE_1_16 : Z := 1.

Record CanPacket_Tst2_t := {
  baudrate : Z;
  id_type : Z;
  iac_control : Z;
  range : Z;
  three_phase : bool;
  slave : bool;
  evc_model : Z;
  id_setting : Z;
  air_cooler : bool;
  parallel_ctrl : bool;
  iacm_max_set_A : spec_float;
  vout_max_set_V : spec_float;
  iout_max_set_A : spec_float;
  password : Z
}.

Definition CanBus_DecodePacket_Tst2
    (data : option frame) (tst2 : option CanPacket_Tst2_t)
    : bool * option CanPacket_Tst2_t :=
  match tst2, data with
  | Some _, Some data =>
      let vout_raw := be16 data 3 in
      let iout_raw := be16 data 5 in
      (true, Some {|
         baudrate := Z.land (Z.shiftr (byte_at data 0) 6) 0x03;
         id_type := Z.land (Z.shiftr (byte_at data 0) 5) 0x01;
         iac_control := Z.land (Z.shiftr (byte_at data 0) 2) 0x03;
         range := Z.land (byte_at data 0) 0x03;
         three_phase := flag (byte_at data 0) (Z.shiftl 1 0);
         slave := flag (byte_at data 1) (Z.shiftl 1 7);
         evc_model := Z.land (Z.shiftr (byte_at data 1) 6) 0x01;
         id_setting := Z.land (Z.shiftr (byte_at data 1) 2) 0x0F;
         parallel_ctrl := flag (byte_at data 1) (Z.shiftl 1 1);
         air_cooler := flag (byte_at data 1) (Z.shiftl 1 0);
         iacm_max_set_A := F32.mul (F32.of_Z (byte_at data 2)) (F32.decimal 1 5);
         vout_max_set_V := F32.mul (F32.of_Z vout_raw) (F32.decimal 1 10);
         iout_max_set_A := F32.mul (F32.of_Z iout_raw) (F32.decimal 1 10);
         password := byte_at data 7 |})
  | _, _ => (false, tst2)
  end.

Definition CanBus_GetBaudrateStr (baudrate : Z) : string :=
  (if Z.eqb baudrate BAUDRATE_500KBIT then "500 Kbit/s"
   else if Z.eqb baudrate BAUDRATE_250KBIT then "250 Kbit/s"
   else if Z.eqb baudrate BAUDRATE_125KBIT then "125 Kbit/s"
   else if Z.eqb baudrate BAUDRATE_1MBIT then "1 Mbit/s"
   else "Unknown")%string.

Definition CanBus_GetIacControlStr (iac_control : Z) : string :=
  (if Z.eqb iac_control IAC_NOT_CONTROLLED then "Not controlled (HW set)"
   else if Z.eqb iac_control IAC_SAEJ1772 then "SAE J1772 Enabled"
   else if Z.eqb iac_control IAC_EN61851 then "EN61851 Enabled"
   else if Z.eqb iac_control IAC_ID618 then "AC current controlled by ID618"
   else "Unknown")%string.

Definition CanBus_GetRangeStr (range : Z) : string :=
  (if Z.eqb range RANGE_R4_EVO_USERS then "R4 (EVO Users Manual)"
   else if Z.eqb range RANGE_R3 then "R3"
   else if Z.eqb range RANGE_R2 then "R2"
   else if Z.eqb range RANGE_R1 then "R1"
   else "Unknown")%string.

Definition CanBus_GetEVCModelStr (model : Z) : string :=
  (if Z.eqb model EVC_EVO11K then "EVO11K (liquid)"
   else if Z.eqb model EVC_EVO22K then "EVO22K (air)"
   else "Unknown")%string.

End Level4.

(* ------------------------------------------------------------------ *)
(** ** Vocabulary of the statements *)

(** The two bytes written for a 16-bit raw value, and the value read back. *)
Definition hi_byte (raw : Z) : Z := to_u8 (Z.land (Z.shiftr raw 8) 0xFF).

Definition lo_byte (raw : Z) : Z := to_u8 (Z.land raw 0xFF).

(** The frame of [Example_DecodeActiveFault]. *)
Definition fault_example : frame :=
  [0x41; 0x01; 0xA8; 0x17; 0x00; 0x1E; 0x00; 0x78].

(** The same frame with the level bits of byte 3 set to 01. *)
Definition fault_level01 : frame :=
  [0x41; 0x01; 0xA8; 0x15; 0x00; 0x1E; 0x00; 0x78].

(** The frame of [Example_NoFaultDetected]. *)
Definition no_fault_frame : frame :=
  [0x00; 0xFF; 0xFF; 0xFF; 0xFF; 0xFF; 0xFF; 0xFF].

(** A fault struct that holds the given level and zeros elsewhere. *)
Definition fault_with_level (level : Z) : Level2.CanPacket_Fault_t :=
  {| Level2.frame_type := 0; Level2.total_errors := 0;
     Level2.frame_number := 0; Level2.fault_code := 0;
     Level2.occurrence := 0; Level2.failure_level := level;
     Level2.first_time_h := 0; Level2.last_time_h := 0 |}.

(** The frame of [Example_DecodeTst2_Default]. *)
Definition tst2_example : frame :=
  [0x04; 0x00; 0xA0; 0x0F; 0xA0; 0x03; 0xE8; 0xA5].

(** A decoder is independent of the output struct's previous contents. *)
Definition ignores_prior {S : Type}
    (decode : option frame -> option S -> bool * option S) : Prop :=
  forall (data : frame) (s1 s2 : S),
    decode (Some data) (Some s1) = decode (Some data) (Some s2).

(** A function of two pointers, the second of which it writes through:
    with a NULL pointer it returns false and leaves the second object as it
    was; with two valid pointers it returns true. *)
Definition null_guarded {A B : Type}
    (f : option A -> option B -> bool * option B) : Prop :=
  (forall b, f None b = (false, b)) /\
  (forall a, f a None = (false, None)) /\
  (forall a b, exists b', f (Some a) (Some b) = (true, Some b')).

(** The same for a function whose only pointer is the buffer it fills. *)
Definition null_guarded1 (f : option frame -> bool * option frame) : Prop :=
  f None = (false, None) /\
  (forall data, exists data', f (Some data) = (true, Some data')).

(** Nothing has been shifted out that was not zero. *)
Definition shr_exact (mrs : shr_record) : Prop :=
  shr_r mrs = false /\ shr_s mrs = false.

(** The dyadic number [m * 2^e] is at most the integer [B]. *)
Definition le_int (m e B : Z) : Prop := e <= 0 /\ m <= B * 2 ^ (- e).

(** The number of mantissa [m], exponent [e] and location [l] (what lies
    between [m] and [m + 1] when [l] is not exact) is at most [Bm * 2^Be]. *)
Definition below (m : Z) (l : location) (e Bm Be : Z) : Prop :=
  e <= Be /\
  m <= Bm * 2 ^ (Be - e) /\
  (l <> loc_Exact -> m < Bm * 2 ^ (Be - e)).

(** The body shared by [Voltage_ToRawCan], [CurrentOut_ToRawCan] and
    [CurrentAC_ToRawCAN], which differ in the upper limit only. *)
Definition scale_clamped (stored : Z) (hi x : spec_float) : Z :=
  let x := if F32.ltb x F32.zero then F32.zero else x in
  let x := if F32.ltb hi x then hi else x in
  F32.to_uint16 stored (F32.mul x (F32.of_Z 10)).

(** The spec's [round((physical - offset) / scale)], to the nearest integer. *)
Definition spec_round (q : Q) : Z := Qfloor (q + (1 # 2)).

Definition spec_encode (scale offset physical : Q) : Z :=
  spec_round ((physical - offset) / scale).

(** [raw] is the single-precision product [x * 10] with its fraction
    discarded, and is at most [B]. *)
Definition truncated_to (raw : Z) (x : spec_float) (B : Z) : Prop :=
  raw = F32.trunc (F32.mul x (F32.of_Z 10)) /\
  0 <= raw <= B /\
  (inject_Z raw <= F32.to_Q (F32.mul x (F32.of_Z 10)))%Q /\
  (F32.to_Q (F32.mul x (F32.of_Z 10)) < inject_Z raw + 1)%Q.

(** [6553.5f], the largest voltage whose tenfold fits 16 bits. *)
Definition vout_fits : spec_float := F32.decimal 13107 2.

(** An execution that leaves [z] wherever a conversion is undefined. *)
Definition stores (z : Z) : Level1.oor_t :=
  {| Level1.oor_voltage := z;
     Level1.oor_current_out := z;
     Level1.oor_current_ac := z |}.

(** The execution of a compilation that converts to a wider integer and
    keeps the low 16 bits, for a set point that passes the clamp as [x]. *)
Definition wraps (x : spec_float) : Level1.oor_t :=
  stores (F32.oor_wrap (F32.mul x (F32.of_Z 10))).

(** Byte 0 of the control frame. *)
Definition ctl_flags (can_enable led3_enable : bool) : Z :=
  (if can_enable then 0x80 else 0) + (if led3_enable then 0x08 else 0).

(** A control frame with the given flags and raw set points. *)
Definition ctl_frame (can_enable led3_enable : bool) (iac vout iout : Z) : frame :=
  [ctl_flags can_enable led3_enable;
   iac / 256; iac mod 256; vout / 256; vout mod 256; iout / 256; iout mod 256;
   0].

(** The buffer a function of the codec leaves behind. *)
Definition written (r : bool * option frame) : frame :=
  match snd r with
  | Some data => data
  | None => []
  end.

(** A number of the format that is not negative and at most 6553.5. *)
Definition decoded_range (x : spec_float) : Prop :=
  F32.is_finite x = true /\
  (0 <= F32.to_Q x)%Q /\ (F32.to_Q x <= 13107 # 2)%Q.

(** [P] holds of the [n] integers from [z] on. *)
Fixpoint all_from (n : nat) (z : Z) (P : Z -> bool) : bool :=
  match n with
  | O => true
  | S k => P z && all_from k (Z.succ z) P
  end.

(** Two numbers of the format are the same. *)
Definition same_float (x y : spec_float) : bool :=
  match x, y with
  | S754_zero s, S754_zero t => Bool.eqb s t
  | S754_infinity s, S754_infinity t => Bool.eqb s t
  | S754_nan, S754_nan => true
  | S754_finite s m e, S754_finite t n f =>
      Bool.eqb s t && Pos.eqb m n && Z.eqb e f
  | _, _ => false
  end.

(** The constants of the converters and decoders, as numbers of the
    format: [10.0f], [0.1f], [10000.0f], [1500.0f] and [500.0f]. *)
Record codec_constants := {
  c_ten : spec_float;
  c_tenth : spec_float;
  c_vout_max : spec_float;
  c_iout_max : spec_float;
  c_iac_max : spec_float
}.

Definition the_constants : codec_constants :=
  {| c_ten := F32.of_Z 10;
     c_tenth := F32.decimal 1 10;
     c_vout_max := F32.of_Z 10000;
     c_iout_max := F32.of_Z 1500;
     c_iac_max := F32.of_Z 500 |}.

(** The same constants, evaluated. *)
Definition the_constants_bits : codec_constants :=
  {| c_ten := S754_finite false 10485760 (-20);
     c_tenth := S754_finite false 13421773 (-27);
     c_vout_max := S754_finite false 10240000 (-10);
     c_iout_max := S754_finite false 12288000 (-13);
     c_iac_max := S754_finite false 16384000 (-15) |}.

(** [x] passes the clamps of the three converters unchanged, as far as
    [raw] is within the converter's limit, and its tenfold is finite with
    integral part [raw]. *)
Definition reencodes (c : codec_constants) (raw : Z) (x : spec_float) : bool :=
  let p := F32.mul x (c_ten c) in
  negb (F32.ltb x F32.zero) &&
  negb (F32.ltb (c_vout_max c) x) &&
  ((15000 <? raw) || negb (F32.ltb (c_iout_max c) x)) &&
  ((5000 <? raw) || negb (F32.ltb (c_iac_max c) x)) &&
  F32.is_finite p && (F32.trunc p =? raw).

(** The check of one raw value for the two decodings of the code,
    [raw / 10.0f] and [raw * 0.1f]. *)
Definition reencode_check (c : codec_constants) (raw : Z) : bool :=
  let x := F32.of_Z raw in
  reencodes c raw (F32.div x (c_ten c)) &&
  reencodes c raw (F32.mul x (c_tenth c)).

(** The check of one whole number of volts or amperes: it is encoded as
    its tenfold, and the tenth of its tenfold is the number again. *)
Definition whole_check (c : codec_constants) (k : Z) : bool :=
  let x := F32.of_Z k in
  reencodes c (10 * k) x &&
  same_float (F32.div (F32.of_Z (10 * k)) (c_ten c)) x.

(** [strlen]: the index of the first NUL of a character array, if it has
    one. *)
Fixpoint c_strlen (chars : list Z) : option nat :=
  match chars with
  | [] => None
  | c :: rest => if c =? 0 then Some O else option_map S (c_strlen rest)
  end.

(** A generator for the examples: a linear congruential [rand]. *)
Definition lcg_srand (seed : Z) (g : Z) : Z := seed.
Definition lcg_rand (g : Z) : Z * Z :=
  let g' := (g * 1103515245 + 12345) mod 2147483648 in (g' / 65536, g').

(* ------------------------------------------------------------------ *)
(** * Properties *)

(** ** Bytes and 16-bit fields *)

Lemma to_u16_range z : 0 <= to_u16 z < 65536.
Proof. unfold to_u16. apply Z.mod_pos_bound. lia. Qed.

Lemma be16_range data i : 0 <= be16 data i < 65536.
Proof. apply to_u16_range. Qed.

Lemma hi_byte_div raw : 0 <= raw < 65536 -> hi_byte raw = raw / 256.
Proof.
  intros H. unfold hi_byte, to_u8.
  change 0xFF with (Z.ones 8). rewrite Z.land_ones by lia.
  rewrite Z.shiftr_div_pow2 by lia. change (2 ^ 8) with 256.
  rewrite Z.mod_mod by lia. apply Z.mod_small.
  split; [apply Z.div_pos; lia | apply Z.div_lt_upper_bound; lia].
Qed.

Lemma lo_byte_mod raw : lo_byte raw = raw mod 256.
Proof.
  unfold lo_byte, to_u8. change 0xFF with (Z.ones 8).
  rewrite Z.land_ones by lia. change (2 ^ 8) with 256.
  apply Z.mod_mod. lia.
Qed.

Lemma hi_lo_combine raw :
  0 <= raw < 65536 ->
  to_u16 (Z.lor (Z.shiftl (hi_byte raw) 8) (lo_byte raw)) = raw.
Proof.
  intros H. rewrite hi_byte_div, lo_byte_mod by assumption.
  rewrite Z.shiftl_mul_pow2 by lia. change (2 ^ 8) with 256.
  assert (Hm : 0 <= raw mod 256 < 256) by (apply Z.mod_pos_bound; lia).
  assert (Hland : Z.land (raw / 256 * 256) (raw mod 256) = 0).
  { apply Z.bits_inj'. intros n Hn. rewrite Z.land_spec, Z.bits_0.
    destruct (Z.ltb_spec n 8).
    - change 256 with (2 ^ 8). rewrite Z.mul_pow2_bits_low by lia. reflexivity.
    - change 256 with (2 ^ 8). rewrite Z.mod_pow2_bits_high by lia.
      apply andb_false_r. }
  rewrite <- Z.lxor_lor, <- Z.add_nocarry_lxor by exact Hland.
  rewrite Z.mul_comm, <- Z.div_mod by lia.
  unfold to_u16. apply Z.mod_small. lia.
Qed.

Lemma be16_value a b :
  byte_ok a -> byte_ok b -> to_u16 (Z.lor (Z.shiftl a 8) b) = a * 256 + b.
Proof.
  unfold byte_ok. intros Ha Hb.
  rewrite Z.shiftl_mul_pow2 by lia. change (2 ^ 8) with 256.
  assert (Hland : Z.land (a * 256) b = 0).
  { apply Z.bits_inj'. intros n Hn. rewrite Z.land_spec, Z.bits_0.
    destruct (Z.ltb_spec n 8).
    - change 256 with (2 ^ 8). rewrite Z.mul_pow2_bits_low by lia. reflexivity.
    - rewrite (Z.bits_above_log2 b n); [apply andb_false_r | lia |].
      destruct (Z.eq_dec b 0) as [->|]; [cbn; lia|].
      apply Z.log2_lt_pow2; [lia|].
      apply Z.lt_le_trans with (2 ^ 8); [change (2 ^ 8) with 256; lia|].
      apply Z.pow_le_mono_r; lia. }
  rewrite <- Z.lxor_lor, <- Z.add_nocarry_lxor by exact Hland.
  unfold to_u16. apply Z.mod_small. lia.
Qed.

(* ------------------------------------------------------------------ *)
(** ** Fault frames (level 2) *)

Section FaultDecode.

Import Level2.

(** A decoded level is one of the three enumerators exactly when the
    level bits are 00, 10 or 11; in every other case the field is the one
    the caller's struct already had. *)
Lemma decode_fault_level data fault :
  exists out,
    CanBus_DecodePacket_Fault (Some data) (Some fault) = (true, Some out) /\
    failure_level out =
      (let bits := Z.land (byte_at data 3) 0x03 in
       if bits =? 0 then FAILURE_WARNING
       else if bits =? 2 then FAILURE_SOFT
       else if bits =? 3 then FAILURE_HARD
       else failure_level fault).
Proof.
  eexists. split; [reflexivity|]. cbn [failure_level].
  assert (Hb : forall b, 0 <= Z.land b 3 < 4).
  { intros b. change (Z.land b 3) with (Z.land b (Z.ones 2)).
    rewrite Z.land_ones by lia. apply Z.mod_pos_bound. lia. }
  specialize (Hb (byte_at data 3)).
  unfold to_u8. rewrite Z.mod_small by lia. reflexivity.
Qed.

Lemma no_fault_loop_spec data n i :
  no_fault_loop data i n = true <->
  (forall j, (i <= j < i + n)%nat -> byte_at data j = 0xFF).
Proof.
  revert i. induction n as [|n IH]; intros i; cbn [no_fault_loop].
  - split; [intros _ j Hj; lia | reflexivity].
  - destruct (Z.eqb_spec (byte_at data i) 0xFF) as [He|He]; cbn [negb].
    + rewrite IH. split; intros H j Hj.
      * destruct (Nat.eq_dec j i) as [->|Hne]; [exact He | apply H; lia].
      * apply H; lia.
    + split; [discriminate | intros H; exfalso; apply He, H; lia].
Qed.

End FaultDecode.

(** C1, as the code has it.  For every fault buffer whose byte 3 has its low
    two bits equal to 01, and whatever the output struct held before the
    call, [CanBus_DecodePacket_Fault] returns true and [failure_level] is
    left as it was: no value is assigned to it, neither one of the three
    symbols nor a value that tells the pattern was not recognised. *)
Theorem fault_level_01_left_unassigned :
  forall (data : frame) (fault : Level2.CanPacket_Fault_t),
    Z.land (byte_at data 3) 0x03 = 1 ->
    exists out,
      Level2.CanBus_DecodePacket_Fault (Some data) (Some fault) = (true, Some out) /\
      Level2.failure_level out = Level2.failure_level fault.
Proof.
  intros data fault Hbits.
  destruct (decode_fault_level data fault) as [out [Hdec Hlvl]].
  exists out. split; [exact Hdec|].
  rewrite Hlvl. cbv zeta. rewrite Hbits. reflexivity.
Qed.

Lemma fault_level_01_left_unassigned_witness :
  Z.land (byte_at fault_level01 3) 0x03 = 1 /\
  exists out,
    Level2.CanBus_DecodePacket_Fault
      (Some fault_level01) (Some (fault_with_level 77)) = (true, Some out) /\
    Level2.failure_level out = Level2.failure_level (fault_with_level 77).
Proof.
  split.
  - reflexivity.
  - apply (fault_level_01_left_unassigned fault_level01 (fault_with_level 77)).
    reflexivity.
Defined.

(** C2, the claim as stated fails on the decoder: on the no-fault frame
    [CanBus_IsNoFaultDetected] answers true, and [CanBus_DecodePacket_Fault],
    which does not consult it, returns true with an ordinary record whose
    frame type and fault count are both 0. *)
Lemma decode_fault_ignores_sentinel :
  Level2.CanBus_IsNoFaultDetected no_fault_frame = true /\
  Level2.CanBus_DecodePacket_Fault
    (Some no_fault_frame) (Some (fault_with_level 0)) =
  (true, Some {| Level2.frame_type := 0; Level2.total_errors := 0;
                 Level2.frame_number := 63; Level2.fault_code := 0xFF;
                 Level2.occurrence := 63;
                 Level2.failure_level := Level2.FAILURE_HARD;
                 Level2.first_time_h := 65535; Level2.last_time_h := 65535 |}).
Proof. split; reflexivity. Qed.

(** C2, amended.  [CanBus_IsNoFaultDetected] answers true exactly when bytes
    1 to 7 are all 0xFF.  The precedence of the sentinel is the caller's:
    [CanBus_Debug_PrintFault] tests it first and, when it holds, reports
    "no fault detected" without decoding, as it does for the frame
    [0x00,0xFF,...,0xFF]; [CanBus_DecodePacket_Fault] itself decodes that
    frame field by field, with frame type 0 and fault count 0. *)
Theorem sentinel_checked_by_caller :
  forall (data : frame) (is_active : bool) (fault0 : Level2.CanPacket_Fault_t),
    (Level2.CanBus_IsNoFaultDetected data = true <->
     (forall i, (1 <= i <= 7)%nat -> byte_at data i = 0xFF)) /\
    (Level2.CanBus_IsNoFaultDetected data = true ->
     Level2.CanBus_Debug_PrintFault data is_active fault0 = Level2.NoFaultDetected) /\
    (Level2.CanBus_IsNoFaultDetected data = false ->
     exists out,
       Level2.CanBus_DecodePacket_Fault (Some data) (Some fault0) = (true, Some out) /\
       Level2.CanBus_Debug_PrintFault data is_active fault0 = Level2.FaultFields out) /\
    Level2.CanBus_Debug_PrintFault no_fault_frame is_active fault0
      = Level2.NoFaultDetected /\
    (exists out,
       Level2.CanBus_DecodePacket_Fault (Some no_fault_frame) (Some fault0)
         = (true, Some out) /\
       Level2.frame_type out = 0 /\ Level2.total_errors out = 0).
Proof.
  intros data is_active fault0. repeat split.
  - intros H i Hi.
    apply (proj1 (no_fault_loop_spec data 7 1) H). lia.
  - intros H. apply (proj2 (no_fault_loop_spec data 7 1)).
    intros j Hj. apply H. lia.
  - intros H. unfold Level2.CanBus_Debug_PrintFault. rewrite H. reflexivity.
  - intros H. eexists. split; [reflexivity|].
    unfold Level2.CanBus_Debug_PrintFault. rewrite H. reflexivity.
  - eexists. split; [reflexivity|]. split; reflexivity.
Qed.

(** C7.  The frame [0x41,0x01,0xA8,0x17,0x00,0x1E,0x00,0x78] decodes, whatever
    the output struct held, to frame type Single, 1 fault in total, fault
    code 0xA8, level Hard, first seen at 30 h and last at 120 h (and frame
    number 0, 5 occurrences). *)
Theorem decode_fault_known_vector :
  forall fault : Level2.CanPacket_Fault_t,
    Level2.CanBus_DecodePacket_Fault (Some fault_example) (Some fault) =
    (true, Some {| Level2.frame_type := Level2.FRAME_SINGLE;
                   Level2.total_errors := 1;
                   Level2.frame_number := 0;
                   Level2.fault_code := 0xA8;
                   Level2.occurrence := 5;
                   Level2.failure_level := Level2.FAILURE_HARD;
                   Level2.first_time_h := 30;
                   Level2.last_time_h := 120 |}).
Proof. intros fault. reflexivity. Qed.

(** The layout behind C7: frame type in bits 7-6 of byte 0, fault count in
    bits 5-0, both times big-endian in bytes 4-5 and 6-7. *)
Lemma decode_fault_layout data fault :
  frame_ok data ->
  exists out,
    Level2.CanBus_DecodePacket_Fault (Some data) (Some fault) = (true, Some out) /\
    Level2.frame_type out = byte_at data 0 / 64 /\
    Level2.total_errors out = byte_at data 0 mod 64 /\
    Level2.fault_code out = byte_at data 2 /\
    Level2.first_time_h out = byte_at data 4 * 256 + byte_at data 5 /\
    Level2.last_time_h out = byte_at data 6 * 256 + byte_at data 7.
Proof.
  intros [Hlen Hall].
  do 9 (destruct data as [|? data]; try discriminate Hlen).
  repeat match goal with H : Forall _ (_ :: _) |- _ => inversion H; clear H; subst end.
  eexists. split; [reflexivity|].
  cbn [Level2.frame_type Level2.total_errors Level2.fault_code
       Level2.first_time_h Level2.last_time_h be16 byte_at nth].
  unfold be16, byte_at; cbn [nth].
  rewrite !be16_value by assumption.
  unfold byte_ok in *. repeat split.
  - rewrite Z.shiftr_div_pow2 by lia. change (2 ^ 6) with 64.
    change 3 with (Z.ones 2). rewrite Z.land_ones by lia.
    apply Z.mod_small. split; [apply Z.div_pos; lia|].
    apply Z.div_lt_upper_bound; change (2 ^ 2) with 4; lia.
  - unfold to_u8. change 0x3F with (Z.ones 6). rewrite Z.land_ones by lia.
    change (2 ^ 6) with 64. apply Z.mod_small.
    assert (0 <= z mod 64 < 64) by (apply Z.mod_pos_bound; lia). lia.
Qed.

(* ------------------------------------------------------------------ *)
(** ** The configuration frame (level 4) *)

(** C8.  The frame [0x04,0x00,0xA0,0x0F,0xA0,0x03,0xE8,0xA5] decodes, whatever
    the output struct held, to baudrate 500 Kbit/s, 32.0 A of maximal AC
    current, 400.0 V and 100.0 A of maximal output, password 0xA5: the three
    single-precision products 160 * 0.2f, 4000 * 0.1f and 1000 * 0.1f are
    exactly 32, 400 and 100. *)
Theorem decode_tst2_known_vector :
  forall tst2 : Level4.CanPacket_Tst2_t,
    exists out,
      Level4.CanBus_DecodePacket_Tst2 (Some tst2_example) (Some tst2)
        = (true, Some out) /\
      Level4.baudrate out = Level4.BAUDRATE_500KBIT /\
      Level4.iacm_max_set_A out = F32.of_Z 32 /\
      Level4.vout_max_set_V out = F32.of_Z 400 /\
      Level4.iout_max_set_A out = F32.of_Z 100 /\
      Level4.password out = 0xA5 /\
      (F32.to_Q (Level4.iacm_max_set_A out) == 32)%Q /\
      (F32.to_Q (Level4.vout_max_set_V out) == 400)%Q /\
      (F32.to_Q (Level4.iout_max_set_A out) == 100)%Q.
Proof.
  intros tst2. eexists. split; [reflexivity|].
  repeat split; vm_compute; reflexivity.
Qed.

(** The layout behind C8: baudrate in the top two bits of byte 0, byte 2 for
    the AC current, bytes 3-4 and 5-6 big-endian for the output limits,
    byte 7 for the password. *)
Lemma decode_tst2_layout data tst2 :
  frame_ok data ->
  exists out,
    Level4.CanBus_DecodePacket_Tst2 (Some data) (Some tst2) = (true, Some out) /\
    Level4.baudrate out = byte_at data 0 / 64 /\
    Level4.iacm_max_set_A out
      = F32.mul (F32.of_Z (byte_at data 2)) (F32.decimal 1 5) /\
    Level4.vout_max_set_V out
      = F32.mul (F32.of_Z (byte_at data 3 * 256 + byte_at data 4)) (F32.decimal 1 10) /\
    Level4.iout_max_set_A out
      = F32.mul (F32.of_Z (byte_at data 5 * 256 + byte_at data 6)) (F32.decimal 1 10) /\
    Level4.password out = byte_at data 7.
Proof.
  intros [Hlen Hall].
  do 9 (destruct data as [|? data]; try discriminate Hlen).
  repeat match goal with H : Forall _ (_ :: _) |- _ => inversion H; clear H; subst end.
  eexists. split; [reflexivity|].
  cbn [Level4.baudrate Level4.iacm_max_set_A Level4.vout_max_set_V
       Level4.iout_max_set_A Level4.password].
  unfold be16, byte_at; cbn [nth].
  rewrite !be16_value by assumption.
  unfold byte_ok in *. repeat split.
  rewrite Z.shiftr_div_pow2 by lia. change (2 ^ 6) with 64.
  change 3 with (Z.ones 2). rewrite Z.land_ones by lia.
  apply Z.mod_small. split; [apply Z.div_pos; lia|].
  apply Z.div_lt_upper_bound; change (2 ^ 2) with 4; lia.
Qed.

(* ------------------------------------------------------------------ *)
(** ** What a decoder reads besides the buffer *)

(** X1.  Every decoder other than the fault decoder is a function of the
    buffer alone: the struct it fills does not depend on what the struct
    held before the call. *)
Theorem decoders_ignore_prior :
  ignores_prior Level1.CanBus_DecodePacket_Stat /\
  ignores_prior Level1.CanBus_DecodePacket_Act1 /\
  ignores_prior Level1.CanBus_DecodePacket_Act2 /\
  ignores_prior Level1.CanBus_DecodePacket_Tst1 /\
  ignores_prior Level2.CanBus_DecodePacket_Software /\
  ignores_prior Level2.CanBus_DecodePacket_SerialNumber /\
  ignores_prior Level3.CanBus_DecodePacket_Act3 /\
  ignores_prior Level3.CanBus_DecodePacket_Temp /\
  ignores_prior Level3.CanBus_DecodePacket_Stst1 /\
  ignores_prior Level3.CanBus_DecodePacket_Act4 /\
  ignores_prior Level4.CanBus_DecodePacket_Tst2.
Proof. repeat split; intros data s1 s2; reflexivity. Qed.

(** X3.  The fault decoder is a function of the buffer alone on every
    buffer whose level bits are not 01. *)
Theorem decode_fault_ignores_prior_unless_01 :
  forall (data : frame) (s1 s2 : Level2.CanPacket_Fault_t),
    Z.land (byte_at data 3) 0x03 <> 1 ->
    Level2.CanBus_DecodePacket_Fault (Some data) (Some s1)
    = Level2.CanBus_DecodePacket_Fault (Some data) (Some s2).
Proof.
  intros data s1 s2 Hbits. cbn [Level2.CanBus_DecodePacket_Fault].
  assert (Hb : 0 <= Z.land (byte_at data 3) (Z.ones 2) < 4).
  { rewrite Z.land_ones by lia. apply Z.mod_pos_bound. lia. }
  change (Z.ones 2) with 3 in Hb.
  unfold to_u8. rewrite (Z.mod_small (Z.land (byte_at data 3) 3)) by lia.
  destruct (Z.eqb_spec (Z.land (byte_at data 3) 3) 0); [reflexivity|].
  destruct (Z.eqb_spec (Z.land (byte_at data 3) 3) 2); [reflexivity|].
  destruct (Z.eqb_spec (Z.land (byte_at data 3) 3) 3); [reflexivity|].
  lia.
Qed.

Lemma decode_fault_ignores_prior_unless_01_witness :
  Z.land (byte_at fault_example 3) 0x03 = 3 /\
  Level2.CanBus_DecodePacket_Fault
    (Some fault_example) (Some (fault_with_level Level2.FAILURE_WARNING))
  = Level2.CanBus_DecodePacket_Fault
      (Some fault_example) (Some (fault_with_level Level2.FAILURE_SOFT)).
Proof.
  split; [reflexivity|].
  apply (decode_fault_ignores_prior_unless_01 fault_example); discriminate.
Defined.

(** C9, as the code has it.  Decoding one and the same fault buffer, whose
    level bits are 01, into two structs that held different levels gives two
    different results: the [failure_level] of each result is the one its
    struct held before, Warning (1) in one and Hard (11) in the other. *)
Theorem decode_fault_depends_on_prior :
  Level2.CanBus_DecodePacket_Fault
    (Some fault_level01) (Some (fault_with_level Level2.FAILURE_WARNING)) =
  (true, Some {| Level2.frame_type := 1; Level2.total_errors := 1;
                 Level2.frame_number := 0; Level2.fault_code := 0xA8;
                 Level2.occurrence := 5;
                 Level2.failure_level := Level2.FAILURE_WARNING;
                 Level2.first_time_h := 30; Level2.last_time_h := 120 |}) /\
  Level2.CanBus_DecodePacket_Fault
    (Some fault_level01) (Some (fault_with_level Level2.FAILURE_HARD)) =
  (true, Some {| Level2.frame_type := 1; Level2.total_errors := 1;
                 Level2.frame_number := 0; Level2.fault_code := 0xA8;
                 Level2.occurrence := 5;
                 Level2.failure_level := Level2.FAILURE_HARD;
                 Level2.first_time_h := 30; Level2.last_time_h := 120 |}).
Proof. split; reflexivity. Qed.

(* ------------------------------------------------------------------ *)
(** ** NULL arguments *)

(** C10.  Every encoder and decoder of the four levels returns false, and
    writes nothing, when the buffer pointer or the struct pointer is NULL,
    and returns true when both are valid. *)
Theorem codec_null_guard :
  forall (oor : Level1.oor_t),
    null_guarded (Level1.CanBus_CreatePacket_Ctl oor) /\
    (forall en led iac vout iout,
        null_guarded1 (Level1.CanBus_CreatePacket_Ctl_Simple oor en led iac vout iout)) /\
    null_guarded Level1.CanBus_DecodePacket_Stat /\
    null_guarded Level1.CanBus_DecodePacket_Act1 /\
    null_guarded Level1.CanBus_DecodePacket_Act2 /\
    null_guarded Level1.CanBus_DecodePacket_Tst1 /\
    (forall en ty, null_guarded1 (Level2.CanBus_CreatePacket_Req en ty)) /\
    null_guarded1 Level2.CanBus_Request_FaultActive /\
    null_guarded1 Level2.CanBus_Request_FaultInactive /\
    null_guarded1 Level2.CanBus_Request_Software /\
    null_guarded1 Level2.CanBus_Request_SerialNumber /\
    null_guarded Level2.CanBus_DecodePacket_Fault /\
    null_guarded Level2.CanBus_DecodePacket_Software /\
    null_guarded Level2.CanBus_DecodePacket_SerialNumber /\
    null_guarded Level3.CanBus_DecodePacket_Act3 /\
    null_guarded Level3.CanBus_DecodePacket_Temp /\
    null_guarded Level3.CanBus_DecodePacket_Stst1 /\
    null_guarded Level3.CanBus_DecodePacket_Act4 /\
    null_guarded Level4.CanBus_DecodePacket_Tst2.
Proof.
  intros oor.
  repeat match goal with
         | |- _ /\ _ => split
         | |- forall _, _ => intro
         end;
    first
      [ split; [reflexivity | intros data; eexists; reflexivity]
      | split; [intros b; destruct b; reflexivity
               | split; [intros a; destruct a; reflexivity
                        | intros a b; eexists; reflexivity]] ].
Qed.

(* ------------------------------------------------------------------ *)
(** ** Single-precision facts used by the encoder *)

Section Shift.

(** [iter_pos] is plain iteration. *)
Lemma iter_pos_nat {A : Type} (f : A -> A) (p : positive) (x : A) :
  iter_pos f p x = Nat.iter (Pos.to_nat p) f x.
Proof.
  revert x. induction p as [p IH|p IH|]; intros x; cbn [iter_pos].
  - rewrite !IH, Pos2Nat.inj_xI, Nat.iter_succ_r.
    replace (2 * Pos.to_nat p)%nat with (Pos.to_nat p + Pos.to_nat p)%nat by lia.
    rewrite Nat.iter_add. reflexivity.
  - rewrite !IH, Pos2Nat.inj_xO.
    replace (2 * Pos.to_nat p)%nat with (Pos.to_nat p + Pos.to_nat p)%nat by lia.
    rewrite Nat.iter_add. reflexivity.
  - reflexivity.
Qed.

Lemma shr_1_spec mrs :
  0 <= shr_m mrs ->
  shr_m (shr_1 mrs) = shr_m mrs / 2 /\
  shr_r (shr_1 mrs) = Z.odd (shr_m mrs) /\
  shr_s (shr_1 mrs) = shr_r mrs || shr_s mrs.
Proof.
  destruct mrs as [m r s]. cbn [shr_m shr_r shr_s]. intros Hm.
  rewrite <- Z.div2_div.
  destruct m as [|[p|p|]|p]; try lia; cbn; auto.
Qed.

Lemma iter_shr_1_spec (k : nat) mrs :
  0 <= shr_m mrs ->
  let out := Nat.iter k shr_1 mrs in
  shr_m out = shr_m mrs / 2 ^ Z.of_nat k /\
  0 <= shr_m out /\
  (shr_exact mrs -> shr_m mrs mod 2 ^ Z.of_nat k = 0 -> shr_exact out).
Proof.
  intros Hm. induction k as [|k IH]; cbn zeta.
  - cbn [Nat.iter]. change (2 ^ Z.of_nat 0) with 1. rewrite Z.div_1_r.
    split; [reflexivity|]. split; [exact Hm|]. intros Hex _. exact Hex.
  - cbn zeta in IH. destruct IH as [IHm [IH0 IHe]].
    rewrite Nat.iter_succ.
    destruct (shr_1_spec (Nat.iter k shr_1 mrs) IH0) as [H1 [H2 H3]].
    assert (Hpow : 2 ^ Z.of_nat (S k) = 2 ^ Z.of_nat k * 2).
    { rewrite Nat2Z.inj_succ, Z.pow_succ_r by lia. lia. }
    assert (Hpos : 0 < 2 ^ Z.of_nat k) by (apply Z.pow_pos_nonneg; lia).
    split; [|split].
    + rewrite H1, IHm, Hpow, Z.div_div by lia. reflexivity.
    + rewrite H1. apply Z.div_pos; lia.
    + intros Hex Hmod. rewrite Hpow in Hmod.
      apply Z.mod_divide in Hmod; [|lia]. destruct Hmod as [q Hq].
      assert (Hk : shr_m mrs mod 2 ^ Z.of_nat k = 0).
      { apply Z.mod_divide; [lia|]. exists (q * 2). lia. }
      destruct (IHe Hex Hk) as [Hr Hs].
      split.
      * rewrite H2, IHm.
        replace (shr_m mrs) with (2 * q * 2 ^ Z.of_nat k) by lia.
        rewrite Z.div_mul by lia. rewrite Z.odd_mul. reflexivity.
      * rewrite H3, Hr, Hs. reflexivity.
Qed.

Lemma digits2_pos_bounds p :
  2 ^ (Zpos (digits2_pos p) - 1) <= Zpos p < 2 ^ Zpos (digits2_pos p).
Proof.
  induction p as [p IH|p IH|]; cbn [digits2_pos].
  - rewrite Pos2Z.inj_succ.
    replace (Z.succ (Zpos (digits2_pos p)) - 1) with (Z.succ (Zpos (digits2_pos p) - 1)) by lia.
    rewrite !Z.pow_succ_r by lia. lia.
  - rewrite Pos2Z.inj_succ.
    replace (Z.succ (Zpos (digits2_pos p)) - 1) with (Z.succ (Zpos (digits2_pos p) - 1)) by lia.
    rewrite !Z.pow_succ_r by lia. lia.
  - cbn. lia.
Qed.

End Shift.

Section RoundingBound.

Lemma round_nearest_even_bounds m l :
  m <= round_nearest_even m l <= m + 1.
Proof.
  destruct l as [|[| |]]; cbn [round_nearest_even]; try lia.
  destruct (Z.even m); lia.
Qed.

Lemma round_nearest_even_exact mrs :
  shr_exact mrs ->
  round_nearest_even (shr_m mrs) (loc_of_shr_record mrs) = shr_m mrs.
Proof.
  destruct mrs as [m r s]. intros [Hr Hs]. cbn in Hr, Hs. subst. reflexivity.
Qed.

Lemma loc_of_shr_record_of_loc m l :
  loc_of_shr_record (shr_record_of_loc m l) = l /\
  shr_m (shr_record_of_loc m l) = m /\
  (l = loc_Exact -> shr_exact (shr_record_of_loc m l)).
Proof.
  destruct l as [|[| |]]; cbn; repeat split; intros; discriminate.
Qed.

Lemma fexp_le_bound m e l Bm Be :
  0 <= m -> 0 <= Bm < 2 ^ 24 -> -149 <= Be -> below m l e Bm Be ->
  fexp F32.prec F32.emax (Zdigits2 m + e) <= Be.
Proof.
  intros Hm HB HBe [He [Hle _]]. unfold fexp, emin, F32.prec, F32.emax.
  apply Z.max_lub; [|lia].
  destruct m as [|p|p]; [cbn; lia | | lia].
  cbn [Zdigits2]. destruct (digits2_pos_bounds p) as [Hlo _].
  assert (Hpe : 0 < 2 ^ (Be - e)) by (apply Z.pow_pos_nonneg; lia).
  assert (Hlt : 2 ^ (Zpos (digits2_pos p) - 1) < 2 ^ (24 + (Be - e))).
  { rewrite Z.pow_add_r by lia. nia. }
  apply Z.pow_lt_mono_r_iff in Hlt; lia.
Qed.

(** One pass of [binary_round_aux]: the mantissa is brought to the exponent
    of the format and rounded, and stays below the bound. *)
Lemma shr_fexp_below m e l Bm Be mrs e' :
  0 <= m -> 0 <= Bm < 2 ^ 24 -> -149 <= Be -> below m l e Bm Be ->
  shr_fexp F32.prec F32.emax m e l = (mrs, e') ->
  0 <= shr_m mrs /\
  below (round_nearest_even (shr_m mrs) (loc_of_shr_record mrs)) loc_Exact e' Bm Be.
Proof.
  intros Hm HB HBe Hbelow Hshr.
  pose proof (fexp_le_bound m e l Bm Be Hm HB HBe Hbelow) as Hfe.
  destruct Hbelow as [He [Hle Hstrict]].
  destruct (loc_of_shr_record_of_loc m l) as [Hloc [Hm0 Hex0]].
  assert (Hnoshift :
    0 <= shr_m (shr_record_of_loc m l) /\
    below (round_nearest_even (shr_m (shr_record_of_loc m l))
             (loc_of_shr_record (shr_record_of_loc m l))) loc_Exact e Bm Be).
  { rewrite Hloc, Hm0. split; [exact Hm|].
    split; [exact He|]. split; [|intros Hne; contradiction Hne; reflexivity].
    pose proof (round_nearest_even_bounds m l) as Hb.
    destruct l as [|c]; [cbn; lia|].
    assert (m < Bm * 2 ^ (Be - e)) by (apply Hstrict; discriminate). lia. }
  unfold shr_fexp, shr in Hshr.
  destruct (fexp F32.prec F32.emax (Zdigits2 m + e) - e) as [|p|p] eqn:Hn;
    inversion Hshr; subst; clear Hshr; try exact Hnoshift.
  clear Hnoshift. rewrite iter_pos_nat.
  set (k := Pos.to_nat p).
  set (mrs0 := shr_record_of_loc m l) in *.
  assert (Hm0' : 0 <= shr_m mrs0) by (rewrite Hm0; exact Hm).
  destruct (iter_shr_1_spec k mrs0 Hm0') as [Hq [Hq0 Hex]].
  cbn zeta in Hq, Hq0, Hex.
  assert (Hk : Z.of_nat k = Zpos p) by apply positive_nat_Z.
  rewrite Hk, Hm0 in Hq, Hex.
  set (out := Nat.iter k shr_1 mrs0) in *.
  split; [exact Hq0|].
  assert (He' : e + Zpos p <= Be) by lia.
  split; [exact He'|].
  split; [|intros Hne; contradiction Hne; reflexivity].
  assert (Hp2 : 0 < 2 ^ Zpos p) by (apply Z.pow_pos_nonneg; lia).
  assert (Hsplit : 2 ^ (Be - e) = 2 ^ (Be - (e + Zpos p)) * 2 ^ Zpos p).
  { rewrite <- Z.pow_add_r by lia. f_equal. lia. }
  rewrite Hsplit, Z.mul_assoc in Hle, Hstrict.
  pose proof (Z.div_mod m (2 ^ Zpos p) ltac:(lia)) as Hdm.
  pose proof (Z.mod_pos_bound m (2 ^ Zpos p) Hp2) as Hr.
  set (b := Bm * 2 ^ (Be - (e + Zpos p))) in *.
  set (q := m / 2 ^ Zpos p) in *.
  pose proof (round_nearest_even_bounds (shr_m out) (loc_of_shr_record out)) as Hb.
  rewrite Hq in Hb |- *.
  destruct l as [|c].
  - destruct (Z.eq_dec (m mod 2 ^ Zpos p) 0) as [Hz|Hnz].
    + rewrite <- Hq, round_nearest_even_exact, Hq.
      * apply (Z.mul_le_mono_pos_r _ _ (2 ^ Zpos p)); lia.
      * apply Hex; [apply Hex0; reflexivity | exact Hz].
    + assert (Hqb : q < b) by (apply (Z.mul_lt_mono_pos_r (2 ^ Zpos p)); lia).
      lia.
  - assert (Hlt : m < b * 2 ^ Zpos p) by (apply Hstrict; discriminate).
    assert (Hqb : q < b) by (apply (Z.mul_lt_mono_pos_r (2 ^ Zpos p)); lia).
    lia.
Qed.

(** Rounding a non-negative number that is at most [Bm * 2^Be], a number
    of the format, gives zero or a positive number that is at most the
    same. *)
Lemma binary_round_aux_below m e l Bm Be :
  0 <= m -> 0 <= Bm < 2 ^ 24 -> -149 <= Be <= 0 -> below m l e Bm Be ->
  match binary_round_aux F32.prec F32.emax false m e l with
  | S754_zero s => s = false
  | S754_finite s m' e' => s = false /\ below (Zpos m') loc_Exact e' Bm Be
  | _ => False
  end.
Proof.
  intros Hm HB HBe Hle. unfold binary_round_aux.
  destruct (shr_fexp F32.prec F32.emax m e l) as [mrs1 e1] eqn:H1.
  destruct (shr_fexp_below m e l Bm Be mrs1 e1 Hm HB ltac:(lia) Hle H1)
    as [Hm1 Hle1].
  set (m1 := round_nearest_even (shr_m mrs1) (loc_of_shr_record mrs1)) in *.
  assert (Hm1' : 0 <= m1).
  { pose proof (round_nearest_even_bounds (shr_m mrs1) (loc_of_shr_record mrs1)).
    unfold m1. lia. }
  destruct (shr_fexp F32.prec F32.emax m1 e1 loc_Exact) as [mrs2 e2] eqn:H2.
  destruct (shr_fexp_below m1 e1 loc_Exact Bm Be mrs2 e2 Hm1' HB ltac:(lia) Hle1 H2)
    as [Hm2 [He2 [Hle2 _]]].
  pose proof (round_nearest_even_bounds (shr_m mrs2) (loc_of_shr_record mrs2)) as Hb2.
  destruct (shr_m mrs2) as [|p|p] eqn:Hs2.
  - reflexivity.
  - unfold F32.emax, F32.prec.
    destruct (Z.leb_spec e2 (128 - 24)); [|lia].
    split; [reflexivity|]. split; [exact He2|].
    split; [lia | intros Hne; contradiction Hne; reflexivity].
  - lia.
Qed.

Lemma le_int_below m e B : le_int m e B <-> below m loc_Exact e B 0.
Proof.
  unfold le_int, below. replace (0 - e) with (- e) by lia.
  split.
  - intros [He Hle]. split; [exact He|]. split; [exact Hle|].
    intros Hne. contradiction Hne. reflexivity.
  - intros [He [Hle _]]. split; assumption.
Qed.

(** Rounding a non-negative dyadic number that is at most a 24-bit integer
    [B] gives zero or a positive number that is at most [B]. *)
Lemma binary_round_aux_le_int m e B :
  0 <= m -> 0 <= B < 2 ^ 24 -> le_int m e B ->
  match binary_round_aux F32.prec F32.emax false m e loc_Exact with
  | S754_zero s => s = false
  | S754_finite s m' e' => s = false /\ le_int (Zpos m') e' B
  | _ => False
  end.
Proof.
  intros Hm HB Hle. apply le_int_below in Hle.
  pose proof (binary_round_aux_below m e loc_Exact B 0 Hm HB ltac:(lia) Hle) as H.
  destruct (binary_round_aux F32.prec F32.emax false m e loc_Exact); try exact H.
  destruct H as [Hs Hb]. split; [exact Hs | apply le_int_below; exact Hb].
Qed.

(** The integral part of such a number. *)
Lemma trunc_le_int m e B :
  0 <= B -> le_int (Zpos m) e B ->
  0 <= F32.trunc (S754_finite false m e) <= B.
Proof.
  intros HB [He Hle]. cbn [F32.trunc cond_Zopp].
  rewrite Z.shiftl_div_pow2 by lia.
  assert (Hp : 0 < 2 ^ (- e)) by (apply Z.pow_pos_nonneg; lia).
  split.
  - apply Z.div_pos; lia.
  - apply Z.div_le_upper_bound; lia.
Qed.

End RoundingBound.

Section Comparison.

Lemma SFcompare_antisym x y :
  SFcompare y x = option_map CompOpp (SFcompare x y).
Proof.
  destruct x as [sx|sx| |sx mx ex], y as [sy|sy| |sy my ey];
    try destruct sx; try destruct sy; try reflexivity;
    cbn [SFcompare option_map]; rewrite (Z.compare_antisym ex ey);
    destruct (ex ?= ey); cbn [CompOpp]; try reflexivity;
    change (Pos.compare_cont Eq my mx) with (Pos.compare my mx);
    change (Pos.compare_cont Eq mx my) with (Pos.compare mx my);
    rewrite (Pos.compare_antisym mx my); reflexivity.
Qed.

Lemma ltb_false_of_leb x y : F32.leb x y = true -> F32.ltb y x = false.
Proof.
  unfold F32.leb, F32.ltb, SFleb, SFltb. rewrite (SFcompare_antisym x y).
  destruct (SFcompare x y) as [[| |]|]; cbn; congruence.
Qed.

Lemma leb_of_ltb_false x y :
  x <> S754_nan -> y <> S754_nan -> F32.ltb y x = false -> F32.leb x y = true.
Proof.
  unfold F32.leb, F32.ltb, SFleb, SFltb. intros Hx Hy.
  rewrite (SFcompare_antisym x y).
  destruct (SFcompare x y) as [[| |]|] eqn:Hc; cbn; try congruence.
  destruct x, y; try congruence; discriminate Hc.
Qed.

Lemma leb_refl_finite m e :
  F32.leb (S754_finite false m e) (S754_finite false m e) = true.
Proof.
  unfold F32.leb, SFleb. cbn [SFcompare].
  rewrite Z.compare_refl, Pos.compare_cont_refl. reflexivity.
Qed.

(** A valid mantissa has at most 24 bits. *)
Lemma valid_mantissa_lt s m e :
  F32.valid (S754_finite s m e) = true -> Zpos m < 2 ^ 24.
Proof.
  unfold F32.valid, valid_binary, bounded, canonical_mantissa, fexp, emin,
    F32.prec, F32.emax.
  intros H. apply andb_prop in H. destruct H as [H _].
  apply Z.eqb_eq in H.
  destruct (digits2_pos_bounds m) as [_ Hhi].
  apply Z.lt_le_trans with (1 := Hhi).
  apply Z.pow_le_mono_r; lia.
Qed.

(** The numbers below a normal positive number, as an inequality on
    mantissas brought to the smaller exponent. *)
Lemma leb_finite_bound m e mX eX :
  F32.valid (S754_finite false m e) = true ->
  2 ^ 23 <= Zpos mX ->
  F32.leb (S754_finite false m e) (S754_finite false mX eX) = true ->
  e <= eX /\ Zpos m <= Zpos mX * 2 ^ (eX - e).
Proof.
  intros Hv HmX Hleb. apply valid_mantissa_lt in Hv.
  unfold F32.leb, SFleb in Hleb. cbn [SFcompare] in Hleb.
  destruct (Z.compare_spec e eX) as [Heq|Hlt|Hgt].
  - subst eX. rewrite Z.sub_diag. change (2 ^ 0) with 1.
    change (Pos.compare_cont Eq m mX) with (Pos.compare m mX) in Hleb.
    destruct (Pos.compare_spec m mX); try discriminate Hleb; lia.
  - split; [lia|].
    assert (H2 : 2 ^ 1 <= 2 ^ (eX - e)) by (apply Z.pow_le_mono_r; lia).
    change (2 ^ 1) with 2 in H2. change (2 ^ 24) with 16777216 in Hv.
    change (2 ^ 23) with 8388608 in HmX. nia.
  - discriminate Hleb.
Qed.

End Comparison.

Section Scaling.

(** [10.0f] *)
Lemma ten_bits : F32.of_Z 10 = S754_finite false 10485760 (-20).
Proof. reflexivity. Qed.

(** The product of a number of [0, X] and 10 is at most [B = 10 X]. *)
Lemma mul10_le_int m e mX eX B :
  F32.valid (S754_finite false m e) = true ->
  F32.leb (S754_finite false m e) (S754_finite false mX eX) = true ->
  2 ^ 23 <= Zpos mX -> eX <= 0 -> 10 * Zpos mX = B * 2 ^ (- eX) ->
  0 <= B < 2 ^ 24 ->
  match F32.mul (S754_finite false m e) (F32.of_Z 10) with
  | S754_zero s => s = false
  | S754_finite s m' e' => s = false /\ le_int (Zpos m') e' B
  | _ => False
  end.
Proof.
  intros Hv Hleb HmX HeX HB HBr.
  destruct (leb_finite_bound m e mX eX Hv HmX Hleb) as [He Hm].
  rewrite ten_bits. unfold F32.mul. cbn [SFmul xorb].
  apply binary_round_aux_le_int; [lia | exact HBr |].
  split; [lia|].
  replace (- (e + -20)) with (20 + (- eX + (eX - e))) by lia.
  rewrite !Z.pow_add_r by lia.
  rewrite Pos2Z.inj_mul.
  assert (Ha : 0 < 2 ^ (eX - e)) by (apply Z.pow_pos_nonneg; lia).
  replace (B * (2 ^ 20 * (2 ^ (- eX) * 2 ^ (eX - e))))
    with (B * 2 ^ (- eX) * 2 ^ (eX - e) * 2 ^ 20) by ring.
  rewrite <- HB. change (2 ^ 20) with 1048576.
  set (t := Zpos mX * 2 ^ (eX - e)) in *.
  replace (10 * Zpos mX * 2 ^ (eX - e)) with (10 * t) by (unfold t; ring).
  lia.
Qed.

(** The integral part lies next below the number. *)
Lemma trunc_to_Q m e :
  (inject_Z (F32.trunc (S754_finite false m e))
     <= F32.to_Q (S754_finite false m e)
   /\ F32.to_Q (S754_finite false m e)
     < inject_Z (F32.trunc (S754_finite false m e)) + 1)%Q.
Proof.
  destruct e as [|p|p]; cbn [F32.trunc F32.to_Q cond_Zopp].
  - cbn [Z.shiftl]. change (2 ^ 0) with 1. rewrite Z.mul_1_r.
    unfold Qle, Qlt. cbn. lia.
  - rewrite Z.shiftl_mul_pow2 by lia.
    unfold Qle, Qlt. cbn [Qnum Qden inject_Z Qplus]. lia.
  - rewrite Z.shiftl_div_pow2 by lia.
    change (- Zneg p) with (Zpos p).
    assert (Hp : 0 < 2 ^ Zpos p) by (apply Z.pow_pos_nonneg; lia).
    pose proof (Z.div_mod (Zpos m) (2 ^ Zpos p) ltac:(lia)) as Hdm.
    pose proof (Z.mod_pos_bound (Zpos m) (2 ^ Zpos p) Hp) as Hr.
    unfold Qle, Qlt. cbn [Qnum Qden inject_Z Qplus].
    rewrite Pos2Z.inj_pow. lia.
Qed.

End Scaling.

(* ------------------------------------------------------------------ *)
(** ** The control frame (level 1) *)

Lemma converters_share_body oor :
  (forall x, Level1.Voltage_ToRawCan oor x
             = scale_clamped (Level1.oor_voltage oor) (F32.of_Z 10000) x) /\
  (forall x, Level1.CurrentOut_ToRawCan oor x
             = scale_clamped (Level1.oor_current_out oor) (F32.of_Z 1500) x) /\
  (forall x, Level1.CurrentAC_ToRawCAN oor x
             = scale_clamped (Level1.oor_current_ac oor) (F32.of_Z 500) x).
Proof. repeat split. Qed.

Lemma to_uint16_range oor x : 0 <= F32.to_uint16 oor x < 65536.
Proof.
  unfold F32.to_uint16.
  destruct (F32.is_finite x && (0 <=? F32.trunc x) && (F32.trunc x <=? 65535)) eqn:H.
  - apply andb_prop in H. destruct H as [H H2].
    apply andb_prop in H. destruct H as [_ H1].
    apply Z.leb_le in H1, H2. lia.
  - apply to_u16_range.
Qed.

Lemma to_uint16_fits oor x :
  F32.is_finite x = true -> 0 <= F32.trunc x <= 65535 ->
  F32.to_uint16 oor x = F32.trunc x.
Proof.
  intros Hf [H0 H1]. unfold F32.to_uint16. rewrite Hf.
  apply Z.leb_le in H0, H1. rewrite H0, H1. reflexivity.
Qed.

Lemma leb_trans_finite m e mX eX mh eh :
  F32.leb (S754_finite false m e) (S754_finite false mX eX) = true ->
  F32.leb (S754_finite false mX eX) (S754_finite false mh eh) = true ->
  F32.leb (S754_finite false m e) (S754_finite false mh eh) = true.
Proof.
  unfold F32.leb, SFleb. cbn [SFcompare].
  change (Pos.compare_cont Eq m mX) with (Pos.compare m mX).
  change (Pos.compare_cont Eq mX mh) with (Pos.compare mX mh).
  change (Pos.compare_cont Eq m mh) with (Pos.compare m mh).
  destruct (Z.compare_spec e eX), (Z.compare_spec eX eh), (Z.compare_spec e eh);
    try (intros; discriminate); try (intros; reflexivity); try lia;
    destruct (Pos.compare_spec m mX), (Pos.compare_spec mX mh),
      (Pos.compare_spec m mh);
    try (intros; discriminate); try (intros; reflexivity); lia.
Qed.

(** In range, neither clamp applies, the product fits and its integral
    part is what is written. *)
Lemma scale_clamped_in_range oor mh eh mX eX B x :
  F32.leb (S754_finite false mX eX) (S754_finite false mh eh) = true ->
  2 ^ 23 <= Zpos mX -> eX <= 0 -> 10 * Zpos mX = B * 2 ^ (- eX) ->
  0 <= B <= 65535 ->
  F32.valid x = true ->
  F32.leb F32.zero x = true ->
  F32.leb x (S754_finite false mX eX) = true ->
  truncated_to (scale_clamped oor (S754_finite false mh eh) x) x B.
Proof.
  intros HXh HmX HeX HB HBr Hv H0 HX.
  assert (HB24 : 0 <= B < 2 ^ 24) by (change (2 ^ 24) with 16777216; lia).
  destruct x as [s|[|]| |s m e]; try discriminate H0; try discriminate HX.
  - (* a zero *)
    unfold scale_clamped, truncated_to. rewrite ten_bits.
    cbn [F32.ltb SFltb SFcompare F32.zero F32.mul SFmul].
    rewrite to_uint16_fits by (cbn; lia || reflexivity).
    cbn [F32.trunc F32.to_Q].
    repeat split; try lia; try (unfold Qle, Qlt; cbn; lia).
  - destruct s; [discriminate H0|].
    pose proof (mul10_le_int m e mX eX B Hv HX HmX HeX HB HB24) as Hmul.
    pose proof (ltb_false_of_leb _ _ (leb_trans_finite _ _ _ _ _ _ HX HXh)) as Hhi.
    unfold scale_clamped, truncated_to.
    replace (F32.ltb (S754_finite false m e) F32.zero) with false by reflexivity.
    cbv zeta. rewrite Hhi.
    destruct (F32.mul (S754_finite false m e) (F32.of_Z 10)) as [s'|s'| |s' m' e'];
      try contradiction.
    + rewrite to_uint16_fits by (cbn; lia || reflexivity).
      cbn [F32.trunc F32.to_Q].
    repeat split; try lia; try (unfold Qle, Qlt; cbn; lia).
    + destruct Hmul as [-> Hle].
      pose proof (trunc_le_int m' e' B ltac:(lia) Hle) as Ht.
      rewrite to_uint16_fits by (reflexivity || lia).
      destruct (trunc_to_Q m' e') as [Hq1 Hq2].
      repeat split; try lia; assumption.
Qed.

(** C3, the claim as stated fails.  0.75 A is in the range of the AC current
    and is scaled to 7.5 exactly; the converter writes 7, the nearest
    integer is 8. *)
Lemma raw_is_not_rounded :
  F32.leb F32.zero (F32.decimal 3 4) = true /\
  F32.leb (F32.decimal 3 4) (F32.of_Z 500) = true /\
  (F32.to_Q (F32.decimal 3 4) == 3 # 4)%Q /\
  Level1.CurrentAC_ToRawCAN (stores 0) (F32.decimal 3 4) = 7 /\
  spec_encode (1 # 10) 0 (F32.to_Q (F32.decimal 3 4)) = 8.
Proof. repeat split. Qed.

(** C3, amended.  For every physical input in the range whose tenfold fits
    16 bits (0 to 500 A for the AC current, 0 to 1500 A for the output
    current, 0 to 6553.5 V for the voltage) the raw integer written is the
    single-precision product physical * 10 with its fraction discarded: it
    is truncated, not rounded to the nearest integer. *)
Theorem raw_is_truncated_product :
  forall (oor : Level1.oor_t) (x : spec_float),
    F32.valid x = true ->
    F32.leb F32.zero x = true ->
    (F32.leb x (F32.of_Z 500) = true ->
     truncated_to (Level1.CurrentAC_ToRawCAN oor x) x 5000) /\
    (F32.leb x (F32.of_Z 1500) = true ->
     truncated_to (Level1.CurrentOut_ToRawCan oor x) x 15000) /\
    (F32.leb x vout_fits = true ->
     truncated_to (Level1.Voltage_ToRawCan oor x) x 65535).
Proof.
  intros oor x Hv H0.
  destruct (converters_share_body oor) as [HV [HO HA]].
  rewrite HV, HO, HA. split; [|split].
  - intros HX. change (F32.of_Z 500) with (S754_finite false 16384000 (-15)) in *.
    apply scale_clamped_in_range with (mX := 16384000%positive) (eX := -15);
      try assumption; try reflexivity; try lia; discriminate.
  - intros HX. change (F32.of_Z 1500) with (S754_finite false 12288000 (-13)) in *.
    apply scale_clamped_in_range with (mX := 12288000%positive) (eX := -13);
      try assumption; try reflexivity; try lia; discriminate.
  - intros HX. change vout_fits with (S754_finite false 13421568 (-11)) in HX.
    change (F32.of_Z 10000) with (S754_finite false 10240000 (-10)).
    apply scale_clamped_in_range with (mX := 13421568%positive) (eX := -11);
      try assumption; try reflexivity; try lia; discriminate.
Qed.

Lemma raw_is_truncated_product_witness :
  F32.valid (F32.decimal 3 4) = true /\
  F32.leb F32.zero (F32.decimal 3 4) = true /\
  ((F32.leb (F32.decimal 3 4) (F32.of_Z 500) = true ->
    truncated_to (Level1.CurrentAC_ToRawCAN (stores 0) (F32.decimal 3 4))
                 (F32.decimal 3 4) 5000) /\
   (F32.leb (F32.decimal 3 4) (F32.of_Z 1500) = true ->
    truncated_to (Level1.CurrentOut_ToRawCan (stores 0) (F32.decimal 3 4))
                 (F32.decimal 3 4) 15000) /\
   (F32.leb (F32.decimal 3 4) vout_fits = true ->
    truncated_to (Level1.Voltage_ToRawCan (stores 0) (F32.decimal 3 4))
                 (F32.decimal 3 4) 65535)).
Proof.
  split; [reflexivity|]. split; [reflexivity|].
  apply (raw_is_truncated_product (stores 0) (F32.decimal 3 4)); reflexivity.
Defined.

Lemma ctl_frame_layout oor ctl data0 :
  Level1.CanBus_CreatePacket_Ctl oor (Some ctl) (Some data0) =
  (true, Some (ctl_frame (Level1.can_enable ctl) (Level1.led3_enable ctl)
                 (Level1.CurrentAC_ToRawCAN oor (Level1.iac_max_A ctl))
                 (Level1.Voltage_ToRawCan oor (Level1.vout_max_V ctl))
                 (Level1.CurrentOut_ToRawCan oor (Level1.iout_max_A ctl)))).
Proof.
  unfold ctl_frame.
  rewrite <- !lo_byte_mod.
  rewrite <- !hi_byte_div
    by (destruct (converters_share_body oor) as [HV [HO HA]];
        rewrite ?HV, ?HO, ?HA; apply to_uint16_range).
  unfold Level1.CanBus_CreatePacket_Ctl, hi_byte, lo_byte, ctl_flags.
  destruct (Level1.can_enable ctl), (Level1.led3_enable ctl); reflexivity.
Qed.

(** C5.  Enable set, LED clear, 16 A, 360 V and 17 A are encoded as
    [0x80,0x00,0xA0,0x0E,0x10,0x00,0xAA,0x00]; and in every control frame
    byte 0 carries the enable flag in bit 7 and the LED flag in bit 3, bytes
    1-2, 3-4 and 5-6 the three raw values with the most significant byte
    first, and byte 7 is zero. *)
Theorem encode_ctl_known_vector :
  forall (oor : Level1.oor_t) (data0 : frame),
    Level1.CanBus_CreatePacket_Ctl_Simple oor true false
      (F32.of_Z 16) (F32.of_Z 360) (F32.of_Z 17) (Some data0)
    = (true, Some [0x80; 0x00; 0xA0; 0x0E; 0x10; 0x00; 0xAA; 0x00]) /\
    (forall ctl,
        Level1.CanBus_CreatePacket_Ctl oor (Some ctl) (Some data0) =
        (true, Some (ctl_frame (Level1.can_enable ctl) (Level1.led3_enable ctl)
                       (Level1.CurrentAC_ToRawCAN oor (Level1.iac_max_A ctl))
                       (Level1.Voltage_ToRawCan oor (Level1.vout_max_V ctl))
                       (Level1.CurrentOut_ToRawCan oor (Level1.iout_max_A ctl))))).
Proof.
  intros oor data0. split.
  - reflexivity.
  - intros ctl. apply ctl_frame_layout.
Qed.

Lemma iter_xO_pow p d : Zpos (Pos.iter xO p d) = Zpos p * 2 ^ Zpos d.
Proof.
  induction d as [|d IH] using Pos.peano_ind.
  - cbn [Pos.iter]. rewrite Pos2Z.inj_xO. change (2 ^ 1) with 2. lia.
  - rewrite Pos.iter_succ, Pos2Z.inj_xO, IH, Pos2Z.inj_succ, Z.pow_succ_r by lia.
    ring.
Qed.

(** The conversion of an integer of at most 24 bits gives a number that is
    not above it. *)
Lemma of_Z_le_int raw :
  0 <= raw < 2 ^ 24 ->
  match F32.of_Z raw with
  | S754_zero s => s = false
  | S754_finite s m e => s = false /\ le_int (Zpos m) e raw
  | _ => False
  end.
Proof.
  intros Hr. destruct raw as [|p|p]; [reflexivity | | lia].
  unfold F32.of_Z, binary_normalize, binary_round, shl_align.
  destruct (fexp F32.prec F32.emax (Zpos (digits2_pos p) + 0) - 0) as [|d|d] eqn:Hd.
  - apply binary_round_aux_le_int; [lia | exact Hr|].
    split; [lia|]. change (2 ^ (- 0)) with 1. lia.
  - apply binary_round_aux_le_int; [lia | exact Hr|].
    split; [lia|]. change (2 ^ (- 0)) with 1. lia.
  - apply binary_round_aux_le_int; [lia | exact Hr|].
    split; [lia|]. rewrite iter_xO_pow.
    replace (- fexp F32.prec F32.emax (Zpos (digits2_pos p) + 0)) with (Zpos d) by lia.
    lia.
Qed.

(** The tenth of a number that is at most 65535 is at most 6553.5. *)
Lemma div10_below m1 e1 raw :
  le_int (Zpos m1) e1 raw -> 0 <= raw <= 65535 ->
  match F32.div (S754_finite false m1 e1) (F32.of_Z 10) with
  | S754_zero s => s = false
  | S754_finite s m e => s = false /\ below (Zpos m) loc_Exact e 13107 (-1)
  | _ => False
  end.
Proof.
  intros [He1 Hle] Hraw. rewrite ten_bits.
  unfold F32.div. cbn [SFdiv xorb]. unfold SFdiv_core_binary.
  change (Zdigits2 (Zpos 10485760)) with 24.
  cbn [Zdigits2].
  set (d1 := Zpos (digits2_pos m1)).
  set (e' := Z.min (fexp F32.prec F32.emax (d1 + e1 - (24 + -20))) (e1 - -20)).
  assert (Hd1 : d1 + e1 <= 16).
  { destruct (digits2_pos_bounds m1) as [Hlo _]. fold d1 in Hlo.
    assert (Hpe : 0 < 2 ^ (- e1)) by (apply Z.pow_pos_nonneg; lia).
    assert (Hlt : 2 ^ (d1 - 1) < 2 ^ (16 + - e1)).
    { rewrite Z.pow_add_r by lia. change (2 ^ 16) with 65536. nia. }
    apply Z.pow_lt_mono_r_iff in Hlt; lia. }
  assert (He'12 : e' <= -12).
  { unfold e', fexp, emin, F32.prec, F32.emax. lia. }
  assert (He's : e' <= e1 + 20) by (unfold e'; lia).
  set (s := e1 - -20 - e').
  assert (Hs : 0 <= s) by (unfold s; lia).
  set (m' := match s with
             | 0 => Zpos m1
             | Zpos _ => Z.shiftl (Zpos m1) s
             | Zneg _ => 0
             end).
  assert (Hm' : m' = Zpos m1 * 2 ^ s).
  { unfold m'. destruct s as [|ps|ps]; [change (2 ^ 0) with 1; lia | | lia].
    apply Z.shiftl_mul_pow2. lia. }
  pose proof (Z_div_mod m' (Zpos 10485760) ltac:(lia)) as Hdiv.
  destruct (Z.div_eucl m' (Zpos 10485760)) as [q r].
  destruct Hdiv as [Hqr Hrr].
  assert (Hps : 0 < 2 ^ s) by (apply Z.pow_pos_nonneg; lia).
  assert (Hpe' : 0 < 2 ^ (-1 - e')) by (apply Z.pow_pos_nonneg; lia).
  assert (Hq0 : 0 <= q) by nia.
  assert (Hpow : 2 ^ (- e1) * 2 ^ s = 1048576 * (2 * 2 ^ (-1 - e'))).
  { transitivity (2 ^ 20 * (2 ^ 1 * 2 ^ (-1 - e'))); [|reflexivity].
    rewrite <- !Z.pow_add_r by lia. f_equal. unfold s. lia. }
  assert (Hnum : 10485760 * q + r <= raw * (1048576 * (2 * 2 ^ (-1 - e')))).
  { rewrite <- Hpow, <- Hqr, Hm', Z.mul_assoc.
    apply Z.mul_le_mono_nonneg_r; lia. }
  set (t := 2 ^ (-1 - e')) in *.
  assert (Hraw_t : raw * (1048576 * (2 * t)) <= 65535 * (1048576 * (2 * t))).
  { apply Z.mul_le_mono_nonneg_r; lia. }
  apply binary_round_aux_below; [exact Hq0 | lia | lia |].
  split; [lia|]. split.
  - fold t. lia.
  - fold t. intros Hne.
    assert (Hr0 : r <> 0).
    { intros ->. apply Hne. reflexivity. }
    lia.
Qed.

(** Whatever 16-bit raw value a control frame carries, the voltage or
    current read from it is at most 6553.5. *)
Lemma decoded_at_most_6553_5 raw :
  0 <= raw <= 65535 ->
  (F32.to_Q (F32.div (F32.of_Z raw) (F32.of_Z 10)) <= 13107 # 2)%Q.
Proof.
  intros Hr.
  pose proof (of_Z_le_int raw ltac:(change (2 ^ 24) with 16777216; lia)) as Hof.
  destruct (F32.of_Z raw) as [s|s| |s m e]; try contradiction.
  - subst s. rewrite ten_bits. cbn. unfold Qle. cbn. lia.
  - destruct Hof as [-> Hle].
    pose proof (div10_below m e raw Hle Hr) as Hdiv.
    destruct (F32.div (S754_finite false m e) (F32.of_Z 10)) as [s'|s'| |s' m' e'];
      try contradiction.
    + cbn. unfold Qle. cbn. lia.
    + destruct Hdiv as [-> [He' [Hm' _]]].
      destruct e' as [|pe|pe]; try lia.
      cbn [F32.to_Q cond_Zopp]. unfold Qle. cbn [Qnum Qden].
      rewrite Pos2Z.inj_pow.
      replace (-1 - Zneg pe) with (Zpos pe - 1) in Hm' by lia.
      assert (H2 : 2 ^ Zpos pe = 2 * 2 ^ (Zpos pe - 1)).
      { rewrite <- Z.pow_succ_r by lia. f_equal. lia. }
      rewrite H2. lia.
Qed.

Lemma converters_range oor x :
  0 <= Level1.CurrentAC_ToRawCAN oor x < 65536 /\
  0 <= Level1.Voltage_ToRawCan oor x < 65536 /\
  0 <= Level1.CurrentOut_ToRawCan oor x < 65536.
Proof. repeat split; apply to_uint16_range. Qed.

(** What [CanBus_Debug_PrintCtl] reads from a control frame. *)
Lemma print_ctl_frame en led iac vout iout :
  0 <= iac < 65536 -> 0 <= vout < 65536 -> 0 <= iout < 65536 ->
  Level1.CanBus_Debug_PrintCtl (ctl_frame en led iac vout iout) =
  {| Level1.p_can_enable := en;
     Level1.p_led3 := led;
     Level1.p_iac_raw := iac;
     Level1.p_iac := F32.div (F32.of_Z iac) (F32.of_Z 10);
     Level1.p_vout_raw := vout;
     Level1.p_vout := F32.div (F32.of_Z vout) (F32.of_Z 10);
     Level1.p_iout_raw := iout;
     Level1.p_iout := F32.div (F32.of_Z iout) (F32.of_Z 10) |}.
Proof.
  intros Ha Hv Hi.
  unfold Level1.CanBus_Debug_PrintCtl, ctl_frame, be16, byte_at. cbn [nth].
  rewrite <- !hi_byte_div, <- !lo_byte_mod by assumption.
  rewrite !hi_lo_combine by assumption.
  replace (flag (ctl_flags en led) 128) with en
    by (destruct en, led; reflexivity).
  replace (flag (ctl_flags en led) 8) with led
    by (destruct en, led; reflexivity).
  reflexivity.
Qed.

(** X2.  The flags and the three raw values of a control frame are read
    back as they were written, for every input: decoding the encoded frame
    gives the two flags of the struct, the raw value each converter
    produced, and for each physical value the tenth of its raw value. *)
Theorem ctl_flags_and_raws_roundtrip :
  forall (oor : Level1.oor_t) (ctl : Level1.CanPacket_Ctl_t) (data0 : frame),
    exists data,
      Level1.CanBus_CreatePacket_Ctl oor (Some ctl) (Some data0) = (true, Some data) /\
      Level1.CanBus_Debug_PrintCtl data =
      (let iac := Level1.CurrentAC_ToRawCAN oor (Level1.iac_max_A ctl) in
       let vout := Level1.Voltage_ToRawCan oor (Level1.vout_max_V ctl) in
       let iout := Level1.CurrentOut_ToRawCan oor (Level1.iout_max_A ctl) in
       {| Level1.p_can_enable := Level1.can_enable ctl;
          Level1.p_led3 := Level1.led3_enable ctl;
          Level1.p_iac_raw := iac;
          Level1.p_iac := F32.div (F32.of_Z iac) (F32.of_Z 10);
          Level1.p_vout_raw := vout;
          Level1.p_vout := F32.div (F32.of_Z vout) (F32.of_Z 10);
          Level1.p_iout_raw := iout;
          Level1.p_iout := F32.div (F32.of_Z iout) (F32.of_Z 10) |}).
Proof.
  intros oor ctl data0. eexists. split; [apply ctl_frame_layout|].
  cbv zeta. apply print_ctl_frame; apply converters_range.
Qed.

(** C6, as the code has it.  7000 V is in the documented range of the
    voltage set point; scaled by ten it is 70000, which 16 bits do not hold.
    Whatever the platform stores for it, the frame is written, its flags and
    both currents are read back as they were given, and the voltage read
    back is the tenth of a 16-bit number, at most 6553.5 V; where the
    conversion wraps, it is 446.4 V. *)
Theorem ctl_roundtrip_loses_7000V :
  forall (oor : Level1.oor_t) (data0 : frame),
    (exists data,
        Level1.CanBus_CreatePacket_Ctl_Simple oor true false
          (F32.of_Z 16) (F32.of_Z 7000) (F32.of_Z 17) (Some data0)
        = (true, Some data) /\
        let p := Level1.CanBus_Debug_PrintCtl data in
        Level1.p_can_enable p = true /\
        Level1.p_led3 p = false /\
        Level1.p_iac p = F32.of_Z 16 /\
        Level1.p_iout p = F32.of_Z 17 /\
        0 <= Level1.p_vout_raw p <= 65535 /\
        Level1.p_vout p = F32.div (F32.of_Z (Level1.p_vout_raw p)) (F32.of_Z 10) /\
        (F32.to_Q (Level1.p_vout p) <= 13107 # 2)%Q) /\
    (F32.to_Q (F32.of_Z 7000) == 7000)%Q /\
    F32.leb (F32.of_Z 7000) (F32.of_Z 10000) = true /\
    F32.trunc (F32.mul (F32.of_Z 7000) (F32.of_Z 10)) = 70000 /\
    (exists data,
        Level1.CanBus_CreatePacket_Ctl_Simple (wraps (F32.of_Z 7000)) true false
          (F32.of_Z 16) (F32.of_Z 7000) (F32.of_Z 17) (Some data0)
        = (true, Some data) /\
        Level1.p_vout_raw (Level1.CanBus_Debug_PrintCtl data) = 4464 /\
        Level1.p_vout (Level1.CanBus_Debug_PrintCtl data) = F32.decimal 4464 10).
Proof.
  intros oor data0. split; [|repeat split].
  - unfold Level1.CanBus_CreatePacket_Ctl_Simple.
    rewrite ctl_frame_layout. cbn [Level1.can_enable Level1.led3_enable
      Level1.iac_max_A Level1.vout_max_V Level1.iout_max_A].
    eexists. split; [reflexivity|].
    destruct (converters_range oor (F32.of_Z 7000)) as [_ [Hr _]].
    rewrite print_ctl_frame
      by (exact Hr || (split; [apply Z.leb_le | apply Z.ltb_lt]; reflexivity)).
    cbn [Level1.p_can_enable Level1.p_led3 Level1.p_iac Level1.p_iout
         Level1.p_vout_raw Level1.p_vout].
    repeat split; try reflexivity; try lia.
    apply decoded_at_most_6553_5. lia.
  - eexists. split; [reflexivity|]. split; reflexivity.
Qed.

Lemma ltb_zero_false_above mh eh x :
  F32.ltb (S754_finite false mh eh) x = true -> F32.ltb x F32.zero = false.
Proof.
  destruct x as [s|[|]| |[|] m e]; try discriminate; reflexivity.
Qed.

(** C4, as the code has it.  A voltage set point above the documented
    range is clamped to 10000 V, and the tenfold of 10000 V is 100000,
    which 16 bits do not hold: the conversion to [uint16_t] is undefined.
    The encoder returns true, and the raw voltage of the frame is whatever
    this execution leaves for that conversion: it is not determined by the
    code, and the voltage read back from it is at most 6553.5 V, never the
    boundary.  A set point that is not a number passes both comparisons of
    a converter and is not clamped at all.  The clamp of the AC current
    does what the documentation says: 600 A and 500 A are both sent as raw
    5000. *)
Theorem voltage_clamp_overflows :
  forall (oor : Level1.oor_t) (ctl : Level1.CanPacket_Ctl_t) (data0 : frame),
    F32.ltb (F32.of_Z 10000) (Level1.vout_max_V ctl) = true ->
    (exists data,
        Level1.CanBus_CreatePacket_Ctl oor (Some ctl) (Some data0)
        = (true, Some data) /\
        Level1.p_vout_raw (Level1.CanBus_Debug_PrintCtl data)
        = to_u16 (Level1.oor_voltage oor) /\
        (F32.to_Q (Level1.p_vout (Level1.CanBus_Debug_PrintCtl data))
         <= 13107 # 2)%Q) /\
    (F32.to_Q (F32.of_Z 10000) == 10000)%Q /\
    F32.trunc (F32.mul (F32.of_Z 10000) (F32.of_Z 10)) = 100000 /\
    (F32.ltb S754_nan F32.zero = false /\
     F32.ltb (F32.of_Z 500) S754_nan = false /\
     Level1.CurrentAC_ToRawCAN oor S754_nan = to_u16 (Level1.oor_current_ac oor) /\
     Level1.Voltage_ToRawCan oor S754_nan = to_u16 (Level1.oor_voltage oor) /\
     Level1.CurrentOut_ToRawCan oor S754_nan
     = to_u16 (Level1.oor_current_out oor)) /\
    (Level1.CurrentAC_ToRawCAN oor (F32.of_Z 600) = 5000 /\
     Level1.CurrentAC_ToRawCAN oor (F32.of_Z 500) = 5000).
Proof.
  intros oor ctl data0 Hv.
  assert (Hraw : Level1.Voltage_ToRawCan oor (Level1.vout_max_V ctl)
                 = to_u16 (Level1.oor_voltage oor)).
  { unfold Level1.Voltage_ToRawCan.
    change (F32.of_Z 10000) with (S754_finite false 10240000 (-10)) in *.
    rewrite (ltb_zero_false_above _ _ _ Hv). cbv zeta. rewrite Hv.
    reflexivity. }
  split; [|repeat split].
  rewrite ctl_frame_layout. eexists. split; [reflexivity|].
  destruct (converters_range oor (Level1.iac_max_A ctl)) as [Ha _].
  destruct (converters_range oor (Level1.vout_max_V ctl)) as [_ [Hr _]].
  destruct (converters_range oor (Level1.iout_max_A ctl)) as [_ [_ Hi]].
  rewrite print_ctl_frame by assumption.
  cbn [Level1.p_vout_raw Level1.p_vout].
  split; [exact Hraw|]. apply decoded_at_most_6553_5. lia.
Qed.

Lemma voltage_clamp_overflows_witness :
  F32.ltb (F32.of_Z 10000) (F32.of_Z 20000) = true /\
  (exists data,
      Level1.CanBus_CreatePacket_Ctl (stores 0xFFFF)
        (Some {| Level1.can_enable := true; Level1.led3_enable := false;
                 Level1.iac_max_A := F32.of_Z 16;
                 Level1.vout_max_V := F32.of_Z 20000;
                 Level1.iout_max_A := F32.of_Z 17 |}) (Some (repeat 0 8))
      = (true, Some data) /\
      data = [0x80; 0x00; 0xA0; 0xFF; 0xFF; 0x00; 0xAA; 0x00] /\
      Level1.p_vout_raw (Level1.CanBus_Debug_PrintCtl data) = 0xFFFF) /\
  Level1.CanBus_CreatePacket_Ctl (wraps (F32.of_Z 10000))
    (Some {| Level1.can_enable := true; Level1.led3_enable := false;
             Level1.iac_max_A := F32.of_Z 16;
             Level1.vout_max_V := F32.of_Z 10000;
             Level1.iout_max_A := F32.of_Z 17 |}) (Some (repeat 0 8))
  = (true, Some [0x80; 0x00; 0xA0; 0x86; 0xA0; 0x00; 0xAA; 0x00]).
Proof.
  split; [reflexivity|]. split; [|reflexivity].
  destruct (voltage_clamp_overflows (stores 0xFFFF)
              {| Level1.can_enable := true; Level1.led3_enable := false;
                 Level1.iac_max_A := F32.of_Z 16;
                 Level1.vout_max_V := F32.of_Z 20000;
                 Level1.iout_max_A := F32.of_Z 17 |} (repeat 0 8) eq_refl)
    as [[data [Hd [Hraw _]]] _].
  exists data. split; [exact Hd|]. split; [|exact Hraw].
  vm_compute in Hd. injection Hd as Hd. symmetry. exact Hd.
Defined.

(* ------------------------------------------------------------------ *)
(** * Further properties of the codec *)

Lemma all_from_spec n z P :
  all_from n z P = true -> forall k, z <= k < z + Z.of_nat n -> P k = true.
Proof.
  revert z. induction n as [|n IH]; intros z H k Hk.
  - cbn in Hk. lia.
  - cbn [all_from] in H. apply andb_prop in H. destruct H as [Hz Hrest].
    destruct (Z.eq_dec k z) as [->|Hne]; [exact Hz|].
    apply (IH (Z.succ z) Hrest). lia.
Qed.

Lemma same_float_eq x y : same_float x y = true -> x = y.
Proof.
  destruct x as [s|s| |s m e], y as [t|t| |t n f]; cbn [same_float];
    try discriminate; try reflexivity.
  - intros H. apply Bool.eqb_prop in H. congruence.
  - intros H. apply Bool.eqb_prop in H. congruence.
  - intros H. apply andb_prop in H. destruct H as [H He].
    apply andb_prop in H. destruct H as [Hs Hm].
    apply Bool.eqb_prop in Hs. apply Pos.eqb_eq in Hm. apply Z.eqb_eq in He.
    congruence.
Qed.

Lemma land_mask_range x k : 0 <= k -> 0 <= Z.land x (Z.ones k) < 2 ^ k.
Proof.
  intros Hk. rewrite Z.land_ones by exact Hk. apply Z.mod_pos_bound.
  apply Z.pow_pos_nonneg; lia.
Qed.

Lemma flag_pow2 x k : 0 <= k -> flag x (2 ^ k) = Z.testbit x k.
Proof.
  intros Hk. unfold flag.
  destruct (Z.testbit x k) eqn:Hb.
  - destruct (Z.eqb_spec (Z.land x (2 ^ k)) 0) as [He|]; [|reflexivity].
    assert (Hk' : Z.testbit (Z.land x (2 ^ k)) k = true).
    { rewrite Z.land_spec, Hb, Z.pow2_bits_true by exact Hk. reflexivity. }
    rewrite He, Z.bits_0 in Hk'. discriminate.
  - destruct (Z.eqb_spec (Z.land x (2 ^ k)) 0) as [|Hne]; [reflexivity|].
    exfalso. apply Hne. apply Z.bits_inj'. intros n Hn.
    rewrite Z.land_spec, Z.bits_0.
    destruct (Z.eq_dec n k) as [->|Hnk].
    + rewrite Hb. reflexivity.
    + rewrite (Z.pow2_bits_false k n) by lia. apply andb_false_r.
Qed.

(* ------------------------------------------------------------------ *)
(** ** What the encoders write *)

Lemma ctl_frame_ok en led iac vout iout :
  0 <= iac < 65536 -> 0 <= vout < 65536 -> 0 <= iout < 65536 ->
  frame_ok (ctl_frame en led iac vout iout).
Proof.
  intros Ha Hv Hi. split; [reflexivity|].
  assert (Hd : forall r, 0 <= r < 65536 -> byte_ok (r / 256)).
  { intros r Hr. unfold byte_ok. split; [apply Z.div_pos; lia|].
    assert (r / 256 < 256) by (apply Z.div_lt_upper_bound; lia). lia. }
  assert (Hm : forall r, byte_ok (r mod 256)).
  { intros r. unfold byte_ok.
    pose proof (Z.mod_pos_bound r 256 ltac:(lia)). lia. }
  assert (Hf : byte_ok (ctl_flags en led)).
  { unfold byte_ok, ctl_flags. destruct en, led; cbn; lia. }
  assert (H0 : byte_ok 0) by (unfold byte_ok; lia).
  unfold ctl_frame. repeat (apply Forall_cons; [auto|]). apply Forall_nil.
Qed.

(** X4.  Whatever the set points are (out of range, infinite or not a
    number) and whatever the buffer held, the control encoder leaves a
    frame of eight bytes, each in 0..255; so does the request encoder for
    every request type. *)
Theorem encoders_write_well_formed_frames :
  forall (oor : Level1.oor_t) (ctl : Level1.CanPacket_Ctl_t)
         (enable : bool) (request_type : Z) (data0 : frame),
    frame_ok (written (Level1.CanBus_CreatePacket_Ctl oor (Some ctl) (Some data0))) /\
    frame_ok (written (Level2.CanBus_CreatePacket_Req enable request_type (Some data0))).
Proof.
  intros oor ctl enable request_type data0. split.
  - rewrite ctl_frame_layout. cbn [written snd].
    apply ctl_frame_ok; apply converters_range.
  - cbn [written snd Level2.CanBus_CreatePacket_Req memset8 repeat store].
    split; [reflexivity|].
    assert (Ht : byte_ok (to_u8 request_type)).
    { unfold byte_ok, to_u8.
      pose proof (Z.mod_pos_bound request_type 256 ltac:(lia)). lia. }
    assert (He : byte_ok (if enable then 128 else 0)).
    { unfold byte_ok. destruct enable; lia. }
    assert (H0 : byte_ok 0) by (unfold byte_ok; lia).
    assert (H6 : byte_ok 6) by (unfold byte_ok; lia).
    repeat (apply Forall_cons; [auto|]). apply Forall_nil.
Qed.


(* ------------------------------------------------------------------ *)
(** ** Diagnostic requests *)

(** X6.  A request frame read back.  For every request type of one byte
    the encoder writes [enable << 7, 0x00, 0x06, type, 0, 0, 0, 0], and
    [CanBus_Debug_PrintReq] reads from it the enable flag as given and the
    identifier 0x0600 + type; the name it prints is the unknown one exactly
    when the type is none of 0x1C, 0x1D, 0x1E and 0x1F. *)
Theorem request_frame_reads_back :
  forall (enable : bool) (request_type : Z) (data0 : frame),
    0 <= request_type <= 255 ->
    let data :=
      written (Level2.CanBus_CreatePacket_Req enable request_type (Some data0)) in
    data = [if enable then 0x80 else 0x00; 0x00; 0x06; request_type; 0; 0; 0; 0] /\
    Level2.r_enable (Level2.CanBus_Debug_PrintReq data) = enable /\
    Level2.r_id (Level2.CanBus_Debug_PrintReq data) = 0x0600 + request_type /\
    (Level2.r_name (Level2.CanBus_Debug_PrintReq data) = " (Unknown)"%string <->
     ~ (0x1C <= request_type <= 0x1F)).
Proof.
  intros enable request_type data0 Hty. cbv zeta.
  assert (Hdata :
    written (Level2.CanBus_CreatePacket_Req enable request_type (Some data0))
    = [if enable then 0x80 else 0x00; 0x00; 0x06; request_type; 0; 0; 0; 0]).
  { cbn [written snd Level2.CanBus_CreatePacket_Req memset8 repeat store].
    unfold to_u8. rewrite Z.mod_small by lia. reflexivity. }
  rewrite Hdata. split; [reflexivity|].
  unfold Level2.CanBus_Debug_PrintReq, be16, byte_at.
  cbn [Level2.r_enable Level2.r_id Level2.r_name nth].
  split; [destruct enable; reflexivity|].
  split.
  - rewrite be16_value by (unfold byte_ok; lia). lia.
  - destruct (Z.eqb_spec request_type 0x1C);
      [split; [discriminate | lia]|].
    destruct (Z.eqb_spec request_type 0x1D);
      [split; [discriminate | lia]|].
    destruct (Z.eqb_spec request_type 0x1E);
      [split; [discriminate | lia]|].
    destruct (Z.eqb_spec request_type 0x1F);
      [split; [discriminate | lia]|].
    split; [lia | reflexivity].
Qed.

Lemma request_frame_reads_back_witness :
  0 <= 0x1D <= 255 /\
  (let data :=
     written (Level2.CanBus_CreatePacket_Req true 0x1D (Some (repeat 0xEE 8))) in
   data = [0x80; 0x00; 0x06; 0x1D; 0; 0; 0; 0] /\
   Level2.r_enable (Level2.CanBus_Debug_PrintReq data) = true /\
   Level2.r_id (Level2.CanBus_Debug_PrintReq data) = 0x0600 + 0x1D /\
   (Level2.r_name (Level2.CanBus_Debug_PrintReq data) = " (Unknown)"%string <->
    ~ (0x1C <= 0x1D <= 0x1F))).
Proof.
  split; [lia|].
  apply (request_frame_reads_back true 0x1D (repeat 0xEE 8)). lia.
Defined.

(** X7.  Each of the four request wrappers asks, with the enable bit set,
    for the identifier on which the answer is sent: 0x61D for the active
    faults, 0x61C for the inactive ones, 0x61E for the software version and
    0x61F for the serial number, whatever the buffer held. *)
Theorem request_wrappers_name_the_answer :
  forall data0 : frame,
    let asked f := Level2.CanBus_Debug_PrintReq (written (f (Some data0))) in
    (Level2.r_enable (asked Level2.CanBus_Request_FaultActive) = true /\
     Level2.r_id (asked Level2.CanBus_Request_FaultActive) = Level2.CAN_ID_FLTA) /\
    (Level2.r_enable (asked Level2.CanBus_Request_FaultInactive) = true /\
     Level2.r_id (asked Level2.CanBus_Request_FaultInactive) = Level2.CAN_ID_FLTP) /\
    (Level2.r_enable (asked Level2.CanBus_Request_Software) = true /\
     Level2.r_id (asked Level2.CanBus_Request_Software) = Level2.CAN_ID_SW) /\
    (Level2.r_enable (asked Level2.CanBus_Request_SerialNumber) = true /\
     Level2.r_id (asked Level2.CanBus_Request_SerialNumber) = Level2.CAN_ID_SN).
Proof. intros data0. cbv zeta. repeat split. Qed.

(* ------------------------------------------------------------------ *)
(** ** Fault frames, further *)

(** X8.  What the decoder makes of a no-fault frame when it is called on
    one.  For every frame that [CanBus_IsNoFaultDetected] accepts, and
    whatever the output struct held, [CanBus_DecodePacket_Fault] returns
    true with fault code 0xFF, 63 occurrences, frame number 63, level Hard
    and both times 65535 h; frame type and fault count are those of
    byte 0. *)
Theorem no_fault_frame_decoded :
  forall (data : frame) (fault : Level2.CanPacket_Fault_t),
    Level2.CanBus_IsNoFaultDetected data = true ->
    Level2.CanBus_DecodePacket_Fault (Some data) (Some fault) =
    (true, Some {| Level2.frame_type := Z.land (Z.shiftr (byte_at data 0) 6) 0x03;
                   Level2.total_errors := to_u8 (Z.land (byte_at data 0) 0x3F);
                   Level2.frame_number := 63;
                   Level2.fault_code := 0xFF;
                   Level2.occurrence := 63;
                   Level2.failure_level := Level2.FAILURE_HARD;
                   Level2.first_time_h := 65535;
                   Level2.last_time_h := 65535 |}).
Proof.
  intros data fault H.
  pose proof (proj1 (no_fault_loop_spec data 7 1) H) as Hall.
  unfold Level2.CanBus_DecodePacket_Fault, be16.
  rewrite (Hall 1%nat), (Hall 2%nat), (Hall 3%nat), (Hall 4%nat),
    (Hall 5%nat), (Hall 6%nat), (Hall 7%nat) by lia.
  reflexivity.
Qed.

Lemma no_fault_frame_decoded_witness :
  Level2.CanBus_IsNoFaultDetected (0x05 :: repeat 0xFF 7) = true /\
  Level2.CanBus_DecodePacket_Fault
    (Some (0x05 :: repeat 0xFF 7)) (Some (fault_with_level 0)) =
  (true, Some {| Level2.frame_type :=
                   Z.land (Z.shiftr (byte_at (0x05 :: repeat 0xFF 7) 0) 6) 0x03;
                 Level2.total_errors :=
                   to_u8 (Z.land (byte_at (0x05 :: repeat 0xFF 7) 0) 0x3F);
                 Level2.frame_number := 63;
                 Level2.fault_code := 0xFF;
                 Level2.occurrence := 63;
                 Level2.failure_level := Level2.FAILURE_HARD;
                 Level2.first_time_h := 65535;
                 Level2.last_time_h := 65535 |}).
Proof.
  split; [reflexivity|].
  apply (no_fault_frame_decoded (0x05 :: repeat 0xFF 7) (fault_with_level 0)).
  reflexivity.
Defined.

Lemma land_3_range x : 0 <= Z.land x 3 <= 3.
Proof. pose proof (land_mask_range x 2 ltac:(lia)) as H. cbn in H. lia. Qed.

Lemma land_1_range x : 0 <= Z.land x 1 <= 1.
Proof. pose proof (land_mask_range x 1 ltac:(lia)) as H. cbn in H. lia. Qed.

Lemma land_15_range x : 0 <= Z.land x 15 <= 15.
Proof. pose proof (land_mask_range x 4 ltac:(lia)) as H. cbn in H. lia. Qed.

Lemma land_63_range x : 0 <= Z.land x 63 <= 63.
Proof. pose proof (land_mask_range x 6 ltac:(lia)) as H. cbn in H. lia. Qed.

(** X9.  The ranges of a decoded fault.  For every buffer the frame type is
    in 0..3, the fault count, the frame number and the occurrences in
    0..63 and both times in 0..65535; and unless the level bits are 01 the
    level is one of Warning, Soft and Hard, so [CanBus_GetFailureLevelStr]
    does not answer "Unknown" for it. *)
Theorem decoded_fault_ranges :
  forall (data : frame) (fault : Level2.CanPacket_Fault_t),
    exists out,
      Level2.CanBus_DecodePacket_Fault (Some data) (Some fault) = (true, Some out) /\
      0 <= Level2.frame_type out <= 3 /\
      0 <= Level2.total_errors out <= 63 /\
      0 <= Level2.frame_number out <= 63 /\
      0 <= Level2.occurrence out <= 63 /\
      0 <= Level2.first_time_h out <= 65535 /\
      0 <= Level2.last_time_h out <= 65535 /\
      (Z.land (byte_at data 3) 0x03 <> 1 ->
       (Level2.failure_level out = Level2.FAILURE_WARNING \/
        Level2.failure_level out = Level2.FAILURE_SOFT \/
        Level2.failure_level out = Level2.FAILURE_HARD) /\
       Level2.CanBus_GetFailureLevelStr (Level2.failure_level out)
         <> "Unknown"%string).
Proof.
  intros data fault.
  destruct (decode_fault_level data fault) as [out [Hdec Hlvl]].
  exists out. split; [exact Hdec|].
  cbv zeta in Hlvl.
  injection Hdec as Hout. subst out.
  cbn [Level2.frame_type Level2.total_errors Level2.frame_number
       Level2.occurrence Level2.first_time_h Level2.last_time_h].
  pose proof (land_3_range (Z.shiftr (byte_at data 0) 6)) as Ht.
  pose proof (land_63_range (byte_at data 0)) as Hn.
  pose proof (land_63_range (Z.shiftr (byte_at data 1) 2)) as Hf.
  pose proof (land_63_range (Z.shiftr (byte_at data 3) 2)) as Ho.
  pose proof (be16_range data 4) as Hb4.
  pose proof (be16_range data 6) as Hb6.
  pose proof (land_3_range (byte_at data 3)) as Hl.
  unfold to_u8. rewrite !Z.mod_small by lia.
  repeat (split; [lia|]).
  intros Hne. cbn [Level2.failure_level].
  destruct (Z.eqb_spec (Z.land (byte_at data 3) 3) 0);
    [split; [auto | discriminate]|].
  destruct (Z.eqb_spec (Z.land (byte_at data 3) 3) 2);
    [split; [auto | discriminate]|].
  destruct (Z.eqb_spec (Z.land (byte_at data 3) 3) 3);
    [split; [auto | discriminate]|].
  lia.
Qed.

(** X10.  A frame whose type bits are 00 or 11 is neither a single nor a
    multi frame; when [CanBus_Debug_PrintFault] prints such a frame it
    names the type "MULTI" and gives the position as frame 1 of 1. *)
Theorem undeclared_frame_type_printed :
  forall (data : frame) (is_active : bool)
         (fault0 out : Level2.CanPacket_Fault_t),
    Level2.CanBus_Debug_PrintFault data is_active fault0 = Level2.FaultFields out ->
    Z.land (Z.shiftr (byte_at data 0) 6) 0x03 <> 1 ->
    Z.land (Z.shiftr (byte_at data 0) 6) 0x03 <> 2 ->
    Level2.frame_type out <> Level2.FRAME_SINGLE /\
    Level2.frame_type out <> Level2.FRAME_MULTI /\
    Level2.printed_frame_type out = "MULTI"%string /\
    Level2.printed_frame_position out = (1, 1).
Proof.
  intros data is_active fault0 out Hprint H1 H2.
  unfold Level2.CanBus_Debug_PrintFault in Hprint.
  destruct (Level2.CanBus_IsNoFaultDetected data); [discriminate|].
  cbn [snd Level2.CanBus_DecodePacket_Fault] in Hprint.
  injection Hprint as Hout. subst out.
  unfold Level2.printed_frame_type, Level2.printed_frame_position.
  cbn [Level2.frame_type].
  unfold Level2.FRAME_SINGLE, Level2.FRAME_MULTI.
  destruct (Z.eqb_spec (Z.land (Z.shiftr (byte_at data 0) 6) 3) 1); [contradiction|].
  destruct (Z.eqb_spec (Z.land (Z.shiftr (byte_at data 0) 6) 3) 2); [contradiction|].
  repeat split; assumption.
Qed.

Lemma undeclared_frame_type_printed_witness :
  Level2.CanBus_Debug_PrintFault
    [0xC2; 0x04; 0xA8; 0x17; 0x00; 0x1E; 0x00; 0x78] true (fault_with_level 0)
  = Level2.FaultFields
      {| Level2.frame_type := 3; Level2.total_errors := 2;
         Level2.frame_number := 1; Level2.fault_code := 0xA8;
         Level2.occurrence := 5; Level2.failure_level := Level2.FAILURE_HARD;
         Level2.first_time_h := 30; Level2.last_time_h := 120 |} /\
  Level2.printed_frame_type
    {| Level2.frame_type := 3; Level2.total_errors := 2;
       Level2.frame_number := 1; Level2.fault_code := 0xA8;
       Level2.occurrence := 5; Level2.failure_level := Level2.FAILURE_HARD;
       Level2.first_time_h := 30; Level2.last_time_h := 120 |} = "MULTI"%string /\
  Level2.printed_frame_position
    {| Level2.frame_type := 3; Level2.total_errors := 2;
       Level2.frame_number := 1; Level2.fault_code := 0xA8;
       Level2.occurrence := 5; Level2.failure_level := Level2.FAILURE_HARD;
       Level2.first_time_h := 30; Level2.last_time_h := 120 |} = (1, 1).
Proof.
  split; [reflexivity|].
  apply (undeclared_frame_type_printed
           [0xC2; 0x04; 0xA8; 0x17; 0x00; 0x1E; 0x00; 0x78] true
           (fault_with_level 0)); [reflexivity | discriminate | discriminate].
Defined.

(** X11.  [CanBus_GetFaultName] knows the fourteen codes 0xA0 to 0xAD and
    no other: for a code of one byte the answer is "Unknown Fault" exactly
    when the code lies outside 0xA0..0xAD. *)
Theorem fault_name_known_range :
  forall code : Z,
    0 <= code <= 255 ->
    (Level2.CanBus_GetFaultName code = "Unknown Fault"%string <->
     ~ (0xA0 <= code <= 0xAD)).
Proof.
  intros code Hc. unfold Level2.CanBus_GetFaultName, to_u8.
  rewrite Z.mod_small by lia. cbv zeta.
  repeat match goal with
         | |- context [Z.eqb code ?c] =>
             destruct (Z.eqb_spec code c) as [->|?];
             [split; [discriminate | intros Hn; exfalso; apply Hn; cbv; split;
                                     discriminate]|]
         end.
  split; [intros _ | reflexivity].
  unfold Level2.FAULT_A0_BULK1_VOLTAGE, Level2.FAULT_A1_BULK2_VOLTAGE,
    Level2.FAULT_A2_BULK3_VOLTAGE, Level2.FAULT_A3_BULK_ERROR,
    Level2.FAULT_A4_CAN_REGISTERS, Level2.FAULT_A5_CAN_COMMAND,
    Level2.FAULT_A6_TEMP_LOW, Level2.FAULT_A7_TEMP_DERATING,
    Level2.FAULT_A8_TEMP_HIGH, Level2.FAULT_A9_TEMP_FAILED,
    Level2.FAULT_AA_INPUT_CURRENT_MAX, Level2.FAULT_AB_HVIL_INTERLOCK,
    Level2.FAULT_AC_LOGIC_TEMP, Level2.FAULT_AD_OUTPUT_OVERVOLT in *.
  lia.
Qed.

Lemma fault_name_known_range_witness :
  0 <= 0xA8 <= 255 /\
  (Level2.CanBus_GetFaultName 0xA8 = "Unknown Fault"%string <->
   ~ (0xA0 <= 0xA8 <= 0xAD)).
Proof. split; [lia | apply (fault_name_known_range 0xA8); lia]. Defined.

(* ------------------------------------------------------------------ *)
(** ** Configuration frames, further *)

(** X12.  Five of the six enumeration fields of a decoded configuration
    frame hold a declared symbol of their type, whatever the buffer:
    baudrate, id type, IAC control, range and EVC model; none of
    [CanBus_GetBaudrateStr], [CanBus_GetIacControlStr],
    [CanBus_GetRangeStr] and [CanBus_GetEVCModelStr] answers "Unknown" for
    a decoded field.  The sixth does not: [id_setting], of type
    [IDSettingType_t] with the two symbols 0 and 1, receives the four bits
    5-2 of byte 1, and every value of 0..15 occurs. *)
Theorem tst2_enum_fields :
  forall (data : frame) (tst2 : Level4.CanPacket_Tst2_t),
    exists out,
      Level4.CanBus_DecodePacket_Tst2 (Some data) (Some tst2) = (true, Some out) /\
      0 <= Level4.baudrate out <= 3 /\
      Level4.CanBus_GetBaudrateStr (Level4.baudrate out) <> "Unknown"%string /\
      (Level4.id_type out = Level4.ID_STANDARD_11BIT \/
       Level4.id_type out = Level4.ID_EXTENDED_29BIT) /\
      0 <= Level4.iac_control out <= 3 /\
      Level4.CanBus_GetIacControlStr (Level4.iac_control out) <> "Unknown"%string /\
      0 <= Level4.range out <= 3 /\
      Level4.CanBus_GetRangeStr (Level4.range out) <> "Unknown"%string /\
      (Level4.evc_model out = Level4.EVC_EVO11K \/
       Level4.evc_model out = Level4.EVC_EVO22K) /\
      Level4.CanBus_GetEVCModelStr (Level4.evc_model out) <> "Unknown"%string /\
      0 <= Level4.id_setting out <= 15 /\
      (forall (b0 n : Z) (rest : frame),
          0 <= n <= 15 ->
          exists out',
            Level4.CanBus_DecodePacket_Tst2
              (Some (b0 :: 4 * n :: rest)) (Some tst2) = (true, Some out') /\
            Level4.id_setting out' = n /\
            (2 <= n ->
             Level4.id_setting out' <> Level4.ID_SINGLE_CHARGER /\
             Level4.id_setting out' <> Level4.ID_RANGE_1_16)).
Proof.
  intros data tst2. eexists. split; [reflexivity|].
  cbn [Level4.baudrate Level4.id_type Level4.iac_control Level4.range
       Level4.evc_model Level4.id_setting].
  pose proof (land_3_range (Z.shiftr (byte_at data 0) 6)) as Hb.
  pose proof (land_1_range (Z.shiftr (byte_at data 0) 5)) as Ht.
  pose proof (land_3_range (Z.shiftr (byte_at data 0) 2)) as Hi.
  pose proof (land_3_range (byte_at data 0)) as Hr.
  pose proof (land_1_range (Z.shiftr (byte_at data 1) 6)) as Hm.
  pose proof (land_15_range (Z.shiftr (byte_at data 1) 2)) as Hs.
  assert (Hid : forall (b0 n : Z) (rest : frame),
             0 <= n <= 15 ->
             exists out',
               Level4.CanBus_DecodePacket_Tst2
                 (Some (b0 :: 4 * n :: rest)) (Some tst2) = (true, Some out') /\
               Level4.id_setting out' = n /\
               (2 <= n ->
                Level4.id_setting out' <> Level4.ID_SINGLE_CHARGER /\
                Level4.id_setting out' <> Level4.ID_RANGE_1_16)).
  { intros b0 n rest Hn. eexists. split; [reflexivity|].
    cbn [Level4.id_setting]. unfold byte_at. cbn [nth].
    assert (Hval : Z.land (Z.shiftr (4 * n) 2) 15 = n).
    { rewrite Z.shiftr_div_pow2 by lia. change (2 ^ 2) with 4.
      rewrite Z.mul_comm, Z.div_mul by lia.
      change 15 with (Z.ones 4). rewrite Z.land_ones by lia.
      apply Z.mod_small. change (2 ^ 4) with 16. lia. }
    rewrite Hval. split; [reflexivity|].
    intros H2. unfold Level4.ID_SINGLE_CHARGER, Level4.ID_RANGE_1_16. lia. }
  revert Hb Ht Hi Hr Hm Hs.
  generalize (Z.land (Z.shiftr (byte_at data 0) 6) 3).
  generalize (Z.land (Z.shiftr (byte_at data 0) 5) 1).
  generalize (Z.land (Z.shiftr (byte_at data 0) 2) 3).
  generalize (Z.land (byte_at data 0) 3).
  generalize (Z.land (Z.shiftr (byte_at data 1) 6) 1).
  generalize (Z.land (Z.shiftr (byte_at data 1) 2) 15).
  intros s m r i t b Hb Ht Hi Hr Hm Hs.
  unfold Level4.ID_STANDARD_11BIT, Level4.ID_EXTENDED_29BIT,
    Level4.EVC_EVO11K, Level4.EVC_EVO22K.
  assert (Hb' : b = 0 \/ b = 1 \/ b = 2 \/ b = 3) by lia.
  assert (Hi' : i = 0 \/ i = 1 \/ i = 2 \/ i = 3) by lia.
  assert (Hr' : r = 0 \/ r = 1 \/ r = 2 \/ r = 3) by lia.
  assert (Hm' : m = 0 \/ m = 1) by lia.
  split; [lia|]. split; [destruct Hb' as [-> | [-> | [-> | ->]]]; discriminate|].
  split; [lia|]. split; [lia|].
  split; [destruct Hi' as [-> | [-> | [-> | ->]]]; discriminate|].
  split; [lia|].
  split; [destruct Hr' as [-> | [-> | [-> | ->]]]; discriminate|].
  split; [lia|]. split; [destruct Hm' as [-> | ->]; discriminate|].
  split; [lia|]. exact Hid.
Qed.

Lemma testbit_3_high n : 2 <= n -> Z.testbit 3 n = false.
Proof. intros Hn. apply Z.bits_above_log2; [lia | cbn; lia]. Qed.

(** Bit 4 of a byte does not reach a two-bit field taken at shift 6 or 2,
    a one-bit field at shift 5, or the two low bits. *)
Lemma bit4_not_in_field b k w :
  0 <= k -> 0 <= w -> (forall n, 0 <= n -> Z.testbit w n = true -> n + k <> 4) ->
  Z.land (Z.shiftr (Z.lxor b 0x10) k) w = Z.land (Z.shiftr b k) w.
Proof.
  intros Hk Hw Hfield. apply Z.bits_inj'. intros n Hn.
  rewrite !Z.land_spec, !Z.shiftr_spec, Z.lxor_spec by lia.
  destruct (Z.testbit w n) eqn:Hwn; [|rewrite !andb_false_r; reflexivity].
  specialize (Hfield n Hn Hwn).
  replace (Z.testbit 16 (n + k)) with false; [rewrite xorb_false_r; reflexivity|].
  symmetry. change 16 with (2 ^ 4). apply Z.pow2_bits_false. lia.
Qed.

(** X13.  The decoder of the configuration frame reads bit 0 of byte 0
    twice and bit 4 of byte 0 never: the three-phase flag is set exactly
    when the range field is odd (R3 or R1), and flipping bit 4 of byte 0
    changes nothing in the decoded record. *)
Theorem tst2_bit0_twice_bit4_never :
  forall (b0 : Z) (rest : frame) (tst2 : Level4.CanPacket_Tst2_t),
    exists out,
      Level4.CanBus_DecodePacket_Tst2 (Some (b0 :: rest)) (Some tst2)
      = (true, Some out) /\
      Level4.three_phase out = Z.odd (Level4.range out) /\
      (Level4.three_phase out = true <->
       Level4.range out = Level4.RANGE_R3 \/ Level4.range out = Level4.RANGE_R1) /\
      Level4.CanBus_DecodePacket_Tst2 (Some (Z.lxor b0 0x10 :: rest)) (Some tst2)
      = (true, Some out).
Proof.
  intros b0 rest tst2. eexists. split; [reflexivity|].
  cbn [Level4.three_phase Level4.range].
  unfold byte_at. cbn [nth].
  assert (Hodd : flag b0 (Z.shiftl 1 0) = Z.odd (Z.land b0 3)).
  { change (Z.shiftl 1 0) with (2 ^ 0). rewrite flag_pow2 by lia.
    rewrite <- !Z.bit0_odd, Z.land_spec.
    change (Z.testbit 3 0) with true. now rewrite andb_true_r. }
  split; [exact Hodd|]. split.
  - rewrite Hodd. pose proof (land_3_range b0) as Hr. revert Hr.
    generalize (Z.land b0 3). intros r Hr.
    unfold Level4.RANGE_R3, Level4.RANGE_R1.
    assert (Hr' : r = 0 \/ r = 1 \/ r = 2 \/ r = 3) by lia.
    destruct Hr' as [-> | [-> | [-> | ->]]]; cbn; split; intros H;
      try discriminate; try reflexivity; try lia; auto.
  - unfold Level4.CanBus_DecodePacket_Tst2, be16, byte_at. cbn [nth].
    assert (H6 : Z.land (Z.shiftr (Z.lxor b0 16) 6) 3 = Z.land (Z.shiftr b0 6) 3).
    { apply bit4_not_in_field; lia. }
    assert (H5 : Z.land (Z.shiftr (Z.lxor b0 16) 5) 1 = Z.land (Z.shiftr b0 5) 1).
    { apply bit4_not_in_field; lia. }
    assert (H2 : Z.land (Z.shiftr (Z.lxor b0 16) 2) 3 = Z.land (Z.shiftr b0 2) 3).
    { apply bit4_not_in_field; try lia. intros n Hn Hb.
      destruct (Z.ltb_spec n 2); [lia|]. rewrite testbit_3_high in Hb by lia.
      discriminate. }
    assert (H0 : Z.land (Z.lxor b0 16) 3 = Z.land b0 3).
    { rewrite <- (Z.shiftr_0_r (Z.lxor b0 16)), <- (Z.shiftr_0_r b0) at 1.
      apply bit4_not_in_field; try lia. intros n Hn Hb.
      destruct (Z.ltb_spec n 2); [lia|]. rewrite testbit_3_high in Hb by lia.
      discriminate. }
    assert (Hf : flag (Z.lxor b0 16) (Z.shiftl 1 0) = flag b0 (Z.shiftl 1 0)).
    { change (Z.shiftl 1 0) with (2 ^ 0). rewrite !flag_pow2 by lia.
      rewrite Z.lxor_spec. cbn. rewrite xorb_false_r. reflexivity. }
    rewrite H6, H5, H2, H0, Hf. reflexivity.
Qed.

(* ------------------------------------------------------------------ *)
(** ** Decoded values and their way back into a frame *)

(** The tenth of a 16-bit raw value is a finite number of [0, 6553.5]. *)
Lemma decoded_in_range raw :
  0 <= raw <= 65535 ->
  decoded_range (F32.div (F32.of_Z raw) (F32.of_Z 10)).
Proof.
  intros Hr. split; [|split; [|apply decoded_at_most_6553_5; exact Hr]].
  - pose proof (of_Z_le_int raw ltac:(change (2 ^ 24) with 16777216; lia)) as Hof.
    destruct (F32.of_Z raw) as [s|s| |s m e]; try contradiction.
    + subst s. rewrite ten_bits. reflexivity.
    + destruct Hof as [-> Hle].
      pose proof (div10_below m e raw Hle Hr) as Hdiv.
      destruct (F32.div (S754_finite false m e) (F32.of_Z 10)) as [s'|s'| |s' m' e'];
        try contradiction; reflexivity.
  - pose proof (of_Z_le_int raw ltac:(change (2 ^ 24) with 16777216; lia)) as Hof.
    destruct (F32.of_Z raw) as [s|s| |s m e]; try contradiction.
    + subst s. rewrite ten_bits. cbn. unfold Qle. cbn. lia.
    + destruct Hof as [-> Hle].
      pose proof (div10_below m e raw Hle Hr) as Hdiv.
      destruct (F32.div (S754_finite false m e) (F32.of_Z 10)) as [s'|s'| |s' m' e'];
        try contradiction.
      * cbn. unfold Qle. cbn. lia.
      * destruct Hdiv as [-> [He' _]].
        destruct e' as [|pe|pe]; try lia.
        cbn [F32.to_Q cond_Zopp]. unfold Qle. cbn [Qnum Qden]. lia.
Qed.

(** X14.  Every current and voltage the decoders of the actual values
    compute as [raw / 10.0f] (AC current, output voltage and output
    current of Act1; proximity and pilot limits of Act2) is a finite
    number that is not negative and at most 6553.5, whatever the buffer:
    never a NaN or an infinity. *)
Theorem actual_values_in_range :
  forall (data : frame) (act1 : Level1.CanPacket_Act1_t)
         (act2 : Level1.CanPacket_Act2_t),
    exists o1 o2,
      Level1.CanBus_DecodePacket_Act1 (Some data) (Some act1) = (true, Some o1) /\
      Level1.CanBus_DecodePacket_Act2 (Some data) (Some act2) = (true, Some o2) /\
      decoded_range (Level1.iac_A o1) /\
      decoded_range (Level1.vout_V o1) /\
      decoded_range (Level1.iout_A o1) /\
      decoded_range (Level1.prox_limit_A o2) /\
      decoded_range (Level1.pilot_limit_A o2).
Proof.
  intros data act1 act2. eexists. eexists.
  split; [reflexivity|]. split; [reflexivity|].
  cbn [Level1.iac_A Level1.vout_V Level1.iout_A
       Level1.prox_limit_A Level1.pilot_limit_A].
  pose proof (be16_range data 0). pose proof (be16_range data 4).
  pose proof (be16_range data 6).
  repeat split; apply decoded_in_range; lia.
Qed.

Lemma the_constants_evaluated : the_constants = the_constants_bits.
Proof. reflexivity. Qed.

(** A value that passes [reencodes] is sent as [raw] by each converter
    whose limit [raw] respects. *)
Lemma reencodes_sound oor raw x :
  reencodes the_constants raw x = true -> 0 <= raw <= 65535 ->
  Level1.Voltage_ToRawCan oor x = raw /\
  (raw <= 15000 -> Level1.CurrentOut_ToRawCan oor x = raw) /\
  (raw <= 5000 -> Level1.CurrentAC_ToRawCAN oor x = raw).
Proof.
  unfold reencodes, the_constants.
  cbn [c_ten c_vout_max c_iout_max c_iac_max]. cbv zeta. intros H Hr.
  apply andb_prop in H. destruct H as [H Ht].
  apply andb_prop in H. destruct H as [H Hf].
  apply andb_prop in H. destruct H as [H Ha].
  apply andb_prop in H. destruct H as [H Ho].
  apply andb_prop in H. destruct H as [H0 Hv].
  apply negb_true_iff in H0, Hv. apply Z.eqb_eq in Ht.
  assert (Hfit : forall stored,
             F32.to_uint16 stored (F32.mul x (F32.of_Z 10)) = raw).
  { intros stored. rewrite to_uint16_fits; [exact Ht | exact Hf | lia]. }
  unfold Level1.Voltage_ToRawCan, Level1.CurrentOut_ToRawCan,
    Level1.CurrentAC_ToRawCAN. cbv zeta. rewrite H0.
  split; [rewrite Hv; apply Hfit|]. split; intros Hle.
  - apply orb_prop in Ho. destruct Ho as [Ho|Ho].
    + apply Z.ltb_lt in Ho. lia.
    + apply negb_true_iff in Ho. rewrite Ho. apply Hfit.
  - apply orb_prop in Ha. destruct Ha as [Ha|Ha].
    + apply Z.ltb_lt in Ha. lia.
    + apply negb_true_iff in Ha. rewrite Ha. apply Hfit.
Qed.

(** The check of every 16-bit raw value, by evaluation. *)
Lemma reencode_all :
  all_from (Z.to_nat 65536) 0 (reencode_check the_constants_bits) = true.
Proof. vm_compute. reflexivity. Qed.

Lemma reencode_each raw :
  0 <= raw <= 65535 ->
  reencodes the_constants raw (F32.div (F32.of_Z raw) (F32.of_Z 10)) = true /\
  reencodes the_constants raw (Level3.tenth raw) = true.
Proof.
  intros Hr. apply andb_prop.
  change (reencode_check the_constants raw = true).
  rewrite the_constants_evaluated.
  apply (all_from_spec _ _ _ reencode_all).
  rewrite Z2Nat.id by lia. lia.
Qed.

(** X15.  What a decoder computes from a 16-bit raw value goes back into
    a frame as the same raw value.  For every raw value the voltage
    converter sends both [raw / 10.0f] (Act1, the control frame) and
    [raw * 0.1f] (Act3, the configuration frame) as [raw] again; so do the
    converter of the output current up to its limit of 15000 and the
    converter of the AC current up to its limit of 5000. *)
Theorem decoded_value_reencodes :
  forall (oor : Level1.oor_t) (raw : Z),
    0 <= raw <= 65535 ->
    (Level1.Voltage_ToRawCan oor (F32.div (F32.of_Z raw) (F32.of_Z 10)) = raw /\
     Level1.Voltage_ToRawCan oor (Level3.tenth raw) = raw) /\
    (raw <= 15000 ->
     Level1.CurrentOut_ToRawCan oor (F32.div (F32.of_Z raw) (F32.of_Z 10)) = raw /\
     Level1.CurrentOut_ToRawCan oor (Level3.tenth raw) = raw) /\
    (raw <= 5000 ->
     Level1.CurrentAC_ToRawCAN oor (F32.div (F32.of_Z raw) (F32.of_Z 10)) = raw /\
     Level1.CurrentAC_ToRawCAN oor (Level3.tenth raw) = raw).
Proof.
  intros oor raw Hr.
  destruct (reencode_each raw Hr) as [Hd Hm].
  destruct (reencodes_sound oor raw _ Hd Hr) as [Hdv [Hdo Hda]].
  destruct (reencodes_sound oor raw _ Hm Hr) as [Hmv [Hmo Hma]].
  repeat split; auto.
Qed.

Lemma decoded_value_reencodes_witness :
  0 <= 4000 <= 65535 /\
  Level1.Voltage_ToRawCan (stores 0) (F32.div (F32.of_Z 4000) (F32.of_Z 10)) = 4000 /\
  Level1.CurrentOut_ToRawCan (stores 0) (Level3.tenth 4000) = 4000 /\
  Level1.CurrentAC_ToRawCAN (stores 0) (Level3.tenth 4000) = 4000.
Proof.
  split; [lia|].
  destruct (decoded_value_reencodes (stores 0) 4000 ltac:(lia))
    as [[Hv _] [Ho Ha]].
  split; [exact Hv|]. split.
  - apply Ho. lia.
  - apply Ha. lia.
Defined.

(** X16.  A control frame goes through the decoder and the encoder
    unchanged.  Take the frame of any two flags and raw set points within
    the limits of the encoder (AC current at most 5000, output current at
    most 15000): encoding the flags and physical values that
    [CanBus_Debug_PrintCtl] reads from it gives the same eight bytes, into
    whatever buffer. *)
Theorem ctl_frame_reencodes :
  forall (oor : Level1.oor_t) (en led : bool) (iac vout iout : Z)
         (buf : frame),
    0 <= iac <= 5000 -> 0 <= vout <= 65535 -> 0 <= iout <= 15000 ->
    let p := Level1.CanBus_Debug_PrintCtl (ctl_frame en led iac vout iout) in
    Level1.CanBus_CreatePacket_Ctl_Simple oor
      (Level1.p_can_enable p) (Level1.p_led3 p)
      (Level1.p_iac p) (Level1.p_vout p) (Level1.p_iout p) (Some buf)
    = (true, Some (ctl_frame en led iac vout iout)).
Proof.
  intros oor en led iac vout iout buf Ha Hv Hi. cbv zeta.
  rewrite print_ctl_frame by lia.
  cbn [Level1.p_can_enable Level1.p_led3 Level1.p_iac Level1.p_vout
       Level1.p_iout].
  unfold Level1.CanBus_CreatePacket_Ctl_Simple.
  rewrite ctl_frame_layout.
  cbn [Level1.can_enable Level1.led3_enable Level1.iac_max_A
       Level1.vout_max_V Level1.iout_max_A].
  destruct (reencode_each iac ltac:(lia)) as [Hca _].
  destruct (reencode_each vout ltac:(lia)) as [Hcv _].
  destruct (reencode_each iout ltac:(lia)) as [Hci _].
  destruct (reencodes_sound oor iac _ Hca ltac:(lia)) as [_ [_ Ea]].
  destruct (reencodes_sound oor vout _ Hcv ltac:(lia)) as [Ev _].
  destruct (reencodes_sound oor iout _ Hci ltac:(lia)) as [_ [Ei _]].
  rewrite Ea, Ev, Ei by lia. reflexivity.
Qed.

Lemma ctl_frame_reencodes_witness :
  0 <= 160 <= 5000 /\ 0 <= 4000 <= 65535 /\ 0 <= 170 <= 15000 /\
  Level1.CanBus_CreatePacket_Ctl_Simple (stores 0) true false
    (F32.div (F32.of_Z 160) (F32.of_Z 10))
    (F32.div (F32.of_Z 4000) (F32.of_Z 10))
    (F32.div (F32.of_Z 170) (F32.of_Z 10)) (Some (repeat 0xFF 8))
  = (true, Some [0x80; 0x00; 0xA0; 0x0F; 0xA0; 0x00; 0xAA; 0x00]).
Proof.
  split; [lia|]. split; [lia|]. split; [lia|].
  exact (ctl_frame_reencodes (stores 0) true false 160 4000 170
           (repeat 0xFF 8) ltac:(lia) ltac:(lia) ltac:(lia)).
Defined.

(** The check of every whole number up to 6553, by evaluation. *)
Lemma whole_all :
  all_from (Z.to_nat 6554) 0 (whole_check the_constants_bits) = true.
Proof. vm_compute. reflexivity. Qed.

(** X17.  Whole numbers are sent and read back exactly.  A whole number
    [k] of volts up to 6553 is sent as raw [10 k], and so is a whole number
    of amperes up to the limit of its converter (1500 and 500); the decoder
    reads raw [10 k] as exactly [k] again. *)
Theorem whole_numbers_exact :
  forall (oor : Level1.oor_t) (k : Z),
    0 <= k <= 6553 ->
    Level1.Voltage_ToRawCan oor (F32.of_Z k) = 10 * k /\
    (k <= 1500 -> Level1.CurrentOut_ToRawCan oor (F32.of_Z k) = 10 * k) /\
    (k <= 500 -> Level1.CurrentAC_ToRawCAN oor (F32.of_Z k) = 10 * k) /\
    F32.div (F32.of_Z (10 * k)) (F32.of_Z 10) = F32.of_Z k.
Proof.
  intros oor k Hk.
  assert (H : whole_check the_constants k = true).
  { rewrite the_constants_evaluated.
    apply (all_from_spec _ _ _ whole_all). rewrite Z2Nat.id by lia. lia. }
  unfold whole_check in H. cbv zeta in H.
  apply andb_prop in H. destruct H as [He Hs].
  apply same_float_eq in Hs.
  destruct (reencodes_sound oor (10 * k) _ He ltac:(lia)) as [Hv [Ho Ha]].
  split; [exact Hv|]. split; [intros Hle; apply Ho; lia|].
  split; [intros Hle; apply Ha; lia | exact Hs].
Qed.

Lemma whole_numbers_exact_witness :
  0 <= 400 <= 6553 /\
  Level1.Voltage_ToRawCan (stores 0) (F32.of_Z 400) = 10 * 400 /\
  Level1.CurrentOut_ToRawCan (stores 0) (F32.of_Z 400) = 10 * 400 /\
  Level1.CurrentAC_ToRawCAN (stores 0) (F32.of_Z 400) = 10 * 400 /\
  F32.div (F32.of_Z (10 * 400)) (F32.of_Z 10) = F32.of_Z 400.
Proof.
  split; [lia|].
  destruct (whole_numbers_exact (stores 0) 400 ltac:(lia))
    as [Hv [Ho [Ha Hd]]].
  split; [exact Hv|]. split; [apply Ho; lia|]. split; [apply Ha; lia | exact Hd].
Defined.

(* ------------------------------------------------------------------ *)
(** ** Version and serial number strings *)

Lemma c_strlen_terminated chars :
  exists n, c_strlen (chars ++ [0]) = Some n /\ (n <= length chars)%nat.
Proof.
  induction chars as [|c rest IH].
  - exists O. split; [reflexivity | cbn; lia].
  - cbn [app c_strlen length]. destruct (c =? 0).
    + exists O. split; [reflexivity | lia].
    + destruct IH as [n [Hn Hle]]. exists (S n). rewrite Hn.
      split; [reflexivity | lia].
Qed.

Lemma c_strlen_full chars :
  Forall (fun c => c <> 0) chars ->
  c_strlen (chars ++ [0]) = Some (length chars).
Proof.
  induction 1 as [|c rest Hc _ IH]; [reflexivity|].
  cbn [app c_strlen length].
  destruct (Z.eqb_spec c 0); [contradiction|]. rewrite IH. reflexivity.
Qed.

(** X18.  The strings of the software version and of the serial number
    are always terminated.  For a buffer of eight bytes each decoder
    stores nine characters, the eight bytes of the buffer followed by a
    NUL, so the string has at most eight characters even when no byte of
    the buffer is a NUL, and exactly eight in that case. *)
Theorem strings_are_terminated :
  forall (data : frame) (sw : Level2.CanPacket_Software_t)
         (sn : Level2.CanPacket_SerialNumber_t),
    length data = 8%nat ->
    exists v s,
      Level2.CanBus_DecodePacket_Software (Some data) (Some sw) = (true, Some v) /\
      Level2.CanBus_DecodePacket_SerialNumber (Some data) (Some sn) = (true, Some s) /\
      Level2.version v = data ++ [0] /\
      Level2.serial s = data ++ [0] /\
      (exists n, c_strlen (Level2.version v) = Some n /\ (n <= 8)%nat) /\
      (exists n, c_strlen (Level2.serial s) = Some n /\ (n <= 8)%nat) /\
      (Forall (fun c => c <> 0) data ->
       c_strlen (Level2.version v) = Some 8%nat /\
       c_strlen (Level2.serial s) = Some 8%nat).
Proof.
  intros data sw sn Hlen. eexists. eexists.
  split; [reflexivity|]. split; [reflexivity|].
  cbn [Level2.version Level2.serial]. unfold Level2.copy8_nul.
  rewrite <- Hlen, firstn_all.
  split; [reflexivity|]. split; [reflexivity|].
  split; [apply c_strlen_terminated|]. split; [apply c_strlen_terminated|].
  intros Hnz. split; apply c_strlen_full; exact Hnz.
Qed.

Lemma strings_are_terminated_witness :
  length [0x53; 0x57; 0x33; 0x32; 0x32; 0x35; 0x41; 0x35] = 8%nat /\
  exists v s,
    Level2.CanBus_DecodePacket_Software
      (Some [0x53; 0x57; 0x33; 0x32; 0x32; 0x35; 0x41; 0x35])
      (Some {| Level2.version := [] |}) = (true, Some v) /\
    Level2.CanBus_DecodePacket_SerialNumber
      (Some [0x53; 0x57; 0x33; 0x32; 0x32; 0x35; 0x41; 0x35])
      (Some {| Level2.serial := [] |}) = (true, Some s) /\
    Level2.version v = [0x53; 0x57; 0x33; 0x32; 0x32; 0x35; 0x41; 0x35; 0] /\
    Level2.serial s = [0x53; 0x57; 0x33; 0x32; 0x32; 0x35; 0x41; 0x35; 0].
Proof.
  split; [reflexivity|].
  destruct (strings_are_terminated
              [0x53; 0x57; 0x33; 0x32; 0x32; 0x35; 0x41; 0x35]
              {| Level2.version := [] |} {| Level2.serial := [] |} eq_refl)
    as [v [s [Hv [Hs [Ev [Es _]]]]]].
  exists v, s. repeat split; assumption.
Defined.

(* ------------------------------------------------------------------ *)
(** ** The random test frame *)

Lemma low_byte_ok v : byte_ok (to_u8 (Z.land v 0xFF)).
Proof. unfold byte_ok, to_u8. pose proof (Z.mod_pos_bound (Z.land v 255) 256). lia. Qed.

(** X19.  [CanBus_GenerateRandomPacket] fills a buffer of eight bytes
    with eight values of 0..255, whatever [rand] returns and whatever the
    buffer held, and leaves its flag set, whether or not it was set
    before. *)
Theorem random_packet_well_formed :
  forall (rng : Type) (srand : Z -> rng -> rng) (rand : rng -> Z * rng)
         (now : Z) (seeded : bool) (g : rng) (data : frame),
    length data = 8%nat ->
    frame_ok (fst (Level1.CanBus_GenerateRandomPacket rng srand rand now
                     seeded g data)) /\
    fst (snd (Level1.CanBus_GenerateRandomPacket rng srand rand now
                seeded g data)) = true.
Proof.
  intros rng srand rand now seeded g data Hlen.
  destruct data as [|b0 [|b1 [|b2 [|b3 [|b4 [|b5 [|b6 [|b7 [|]]]]]]]]];
    try discriminate.
  unfold Level1.CanBus_GenerateRandomPacket.
  destruct (if negb seeded then (true, srand (to_u32 now) g) else (seeded, g))
    as [fl g0] eqn:Hseed.
  assert (Hfl : fl = true).
  { destruct seeded; cbn in Hseed; congruence. }
  cbn [Level1.random_loop].
  destruct (rand g0) as [v0 g1]. destruct (rand g1) as [v1 g2].
  destruct (rand g2) as [v2 g3]. destruct (rand g3) as [v3 g4].
  destruct (rand g4) as [v4 g5]. destruct (rand g5) as [v5 g6].
  destruct (rand g6) as [v6 g7]. destruct (rand g7) as [v7 g8].
  cbn [store fst snd]. split; [|exact Hfl].
  split; [reflexivity|].
  repeat (apply Forall_cons; [apply low_byte_ok|]). apply Forall_nil.
Qed.

Lemma random_packet_well_formed_witness :
  length (repeat 0 8) = 8%nat /\
  frame_ok (fst (Level1.CanBus_GenerateRandomPacket Z lcg_srand lcg_rand
                   1700000000 false 0 (repeat 0 8))) /\
  fst (snd (Level1.CanBus_GenerateRandomPacket Z lcg_srand lcg_rand
              1700000000 false 0 (repeat 0 8))) = true.
Proof.
  split; [reflexivity|].
  apply (random_packet_well_formed Z lcg_srand lcg_rand 1700000000 false 0
           (repeat 0 8)). reflexivity.
Defined.

(* ------------------------------------------------------------------ *)
(** ** The maximum of the power stage temperatures *)

Lemma ltb_irrefl x : F32.ltb x x = false.
Proof.
  destruct x as [s|[|]| |[|] m e]; try reflexivity;
    unfold F32.ltb, SFltb; cbn [SFcompare];
    rewrite Z.compare_refl, Pos.compare_cont_refl; reflexivity.
Qed.

Lemma ltb_compare x y :
  F32.ltb x y = true <-> SFcompare x y = Some Lt.
Proof.
  unfold F32.ltb, SFltb.
  destruct (SFcompare x y) as [[| |]|]; split; intros H;
    try discriminate; reflexivity.
Qed.

Lemma finite_compare_lt s1 m1 e1 s2 m2 e2 :
  SFcompare (S754_finite s1 m1 e1) (S754_finite s2 m2 e2) = Some Lt <->
  (s1 = true /\ s2 = false) \/
  (s1 = false /\ s2 = false /\ (e1 < e2 \/ (e1 = e2 /\ (m1 < m2)%positive))) \/
  (s1 = true /\ s2 = true /\ (e2 < e1 \/ (e1 = e2 /\ (m2 < m1)%positive))).
Proof.
  cbn [SFcompare].
  change (Pos.compare_cont Eq m1 m2) with (Pos.compare m1 m2).
  destruct s1, s2;
    destruct (Z.compare_spec e1 e2) as [He|He|He];
    destruct (Pos.compare_spec m1 m2) as [Hm|Hm|Hm]; cbn [CompOpp];
    (split;
     [ intros H; try discriminate H;
       first [ left; split; reflexivity
             | right; left; split; [reflexivity|]; split; [reflexivity|]; lia
             | right; right; split; [reflexivity|]; split; [reflexivity|]; lia ]
     | intros [[H1 H2]|[[H1 [H2 H3]]|[H1 [H2 H3]]]];
       try discriminate H1; try discriminate H2; try reflexivity; lia ]).
Qed.

Lemma ltb_trans x y z :
  F32.ltb x y = true -> F32.ltb y z = true -> F32.ltb x z = true.
Proof.
  rewrite !ltb_compare.
  destruct x as [sx|sx| |sx mx ex], y as [sy|sy| |sy my ey],
    z as [sz|sz| |sz mz ez].
  all: try (repeat match goal with b : bool |- _ => destruct b end;
            cbn [SFcompare]; congruence).
  rewrite !finite_compare_lt. intros Hxy Hyz.
  destruct Hxy as [[H1 H2]|[[H1 [H2 H3]]|[H1 [H2 H3]]]];
    destruct Hyz as [[H4 H5]|[[H4 [H5 H6]]|[H4 [H5 H6]]]];
    subst; try discriminate;
    first [ left; split; reflexivity
          | right; left; split; [reflexivity|]; split; [reflexivity|]; lia
          | right; right; split; [reflexivity|]; split; [reflexivity|]; lia ].
Qed.

Lemma ltb_asym x y : F32.ltb x y = true -> F32.ltb y x = false.
Proof.
  intros H. destruct (F32.ltb y x) eqn:E; [|reflexivity].
  pose proof (ltb_trans x y x H E) as Hxx. rewrite ltb_irrefl in Hxx.
  discriminate.
Qed.

(** X20.  The maximum [CanBus_Debug_PrintTemp] shows is one of the three
    power stage temperatures, and none of the three is greater than it,
    for all contents of the struct, NaN and infinities included. *)
Theorem max_power_stage_temp_is_max :
  forall temp : Level3.CanPacket_Temp_t,
    (Level3.max_power_stage_temp temp = Level3.temp_power1_C temp \/
     Level3.max_power_stage_temp temp = Level3.temp_power2_C temp \/
     Level3.max_power_stage_temp temp = Level3.temp_power3_C temp) /\
    F32.ltb (Level3.max_power_stage_temp temp) (Level3.temp_power1_C temp) = false /\
    F32.ltb (Level3.max_power_stage_temp temp) (Level3.temp_power2_C temp) = false /\
    F32.ltb (Level3.max_power_stage_temp temp) (Level3.temp_power3_C temp) = false.
Proof.
  intros [hv p1 p2 p3]. unfold Level3.max_power_stage_temp.
  cbn [Level3.temp_power1_C Level3.temp_power2_C Level3.temp_power3_C].
  cbv zeta.
  destruct (F32.ltb p1 p2) eqn:H12.
  - destruct (F32.ltb p2 p3) eqn:H23.
    + repeat split; auto using ltb_irrefl, ltb_asym.
      apply ltb_asym. exact (ltb_trans _ _ _ H12 H23).
    + repeat split; auto using ltb_irrefl, ltb_asym.
  - destruct (F32.ltb p1 p3) eqn:H13.
    + repeat split; auto using ltb_irrefl, ltb_asym.
      destruct (F32.ltb p3 p2) eqn:H32; [|reflexivity].
      rewrite (ltb_trans _ _ _ H13 H32) in H12. discriminate.
    + repeat split; auto using ltb_irrefl, ltb_asym.
Qed.
